(** * Chat agents with templated instructions: a shallow embedding

    The development follows the three chat programs of the repository
    ([6_simple_chat/main.py], [7_simple_chat_with_apis/main.py] and
    [8_simple_chat_with_gradio/main.py]):

    - [Py]        the Python string and list primitives the programs call
                  ([str.replace], [str.find], [in], [str.lower], slicing);
    - [Chat]      the [ChatContext] dataclass with [add_message] and
                  [get_history_text];
    - [Agents]    agents, function tools and the boundary of the runner
                  the programs await;
    - [Turn]      the body of one turn ([process_message], which is also
                  the body of the [while] loop of the two console programs);
    - [SimpleChat], [ApiChat], [Gradio]
                  the agents each program builds, and the tool registry
                  of the graphical one;
    - [Samples]   contexts, engines and descriptors the properties are
                  tried on.

    The second part states and proves the properties, module by module
    ([PyFacts], [ChatFacts], [RenderFacts], [TurnFacts], [RegistryFacts],
    [SessionFacts]).  A string is the sequence of the bytes of its text
    in UTF-8: a character is a byte that does not continue another, with
    the bytes that continue it. *)

From Stdlib Require Import ZArith List String Ascii Lia Bool.
From stdpp Require Import base gmap strings.
Import ListNotations.

Set Warnings "-register-all".

Open Scope string_scope.
Open Scope list_scope.

(* ================================================================== *)
(** * Part I: definitions *)
(* ================================================================== *)

(** ** Python primitives *)

Module Py.

(** The line feed, written [\n] in the sources. *)
Definition nl : string := String (ascii_of_nat 10) "".

(** [s.startswith(p)]. *)
Definition startswith (s p : string) : bool := String.prefix p s.

(** [s.find(sub)]: index of the leftmost occurrence, [None] for -1. *)
Fixpoint find (sub s : string) : option nat :=
  if String.prefix sub s then Some 0
  else match s with
       | "" => None
       | String _ s' => option_map S (find sub s')
       end.

(** [sub in s] for two strings. *)
Definition contains (sub s : string) : bool :=
  match find sub s with Some _ => true | None => false end.

(** [s.replace(old, new)] for a non-empty [old]: scan from the left; at
    an occurrence of [old] emit [new] and resume after the occurrence
    (occurrences do not overlap), elsewhere copy the character.  [skip]
    counts the characters of a matched occurrence still to be dropped. *)
Fixpoint replace_from (old new : string) (skip : nat) (s : string) : string :=
  match s with
  | "" => ""
  | String c s' =>
      match skip with
      | S k => replace_from old new k s'
      | O =>
          if String.prefix old s
          then new +:+ replace_from old new (String.length old - 1) s'
          else String c (replace_from old new 0 s')
      end
  end.

(** [s.replace("", new)]: [new] before every character and at the end. *)
Fixpoint interleave (new s : string) : string :=
  match s with
  | "" => new
  | String c s' => new +:+ String c (interleave new s')
  end.

Definition replace (s old new : string) : string :=
  match old with
  | "" => interleave new s
  | _ => replace_from old new 0 s
  end.

(** [s.lower()] on ASCII letters. *)
Definition lower_char (c : ascii) : ascii :=
  let n := nat_of_ascii c in
  if (65 <=? n)%nat && (n <=? 90)%nat then ascii_of_nat (n + 32) else c.

Fixpoint lower (s : string) : string :=
  match s with
  | "" => ""
  | String c s' => String (lower_char c) (lower s')
  end.

(** A byte that continues a character of UTF-8 text (bits [10xxxxxx]). *)
Definition is_continuation (c : ascii) : bool :=
  let n := nat_of_ascii c in
  (128 <=? n)%nat && (n <? 192)%nat.

(** [len(s)]: the number of characters. *)
Fixpoint len (s : string) : nat :=
  match s with
  | "" => 0
  | String c s' => (if is_continuation c then 0 else 1) + len s'
  end.

(** [s[:n]] for a non-negative literal [n]: the first [n] characters, each
    with the bytes that continue it. *)
Fixpoint take (n : nat) (s : string) : string :=
  match s with
  | "" => ""
  | String c s' =>
      if is_continuation c then String c (take n s')
      else match n with
           | O => ""
           | S m => String c (take m s')
           end
  end.

(** [l[start:]]: a negative [start] counts from the end, and both ends
    are clamped to the list. *)
Definition slice_from {A} (start : Z) (l : list A) : list A :=
  let len := Z.of_nat (length l) in
  let lo := if (start <? 0)%Z then Z.max 0 (len + start) else Z.min start len in
  skipn (Z.to_nat lo) l.

(** [s.split(sep)] for a non-empty [sep]: the pieces between the
    occurrences of [sep], found from the left and not overlapping; the
    first piece of the result is the one being read.  [skip] counts the
    characters of a matched separator still to be dropped. *)
Fixpoint split_from (sep : string) (skip : nat) (s : string) : list string :=
  match s with
  | "" => [""]
  | String c s' =>
      match skip with
      | S k => split_from sep k s'
      | O =>
          if String.prefix sep s
          then "" :: split_from sep (String.length sep - 1) s'
          else match split_from sep 0 s' with
               | piece :: pieces => String c piece :: pieces
               | [] => [String c ""]
               end
      end
  end.

(** [s.split(sep)]; an empty separator raises [ValueError]. *)
Definition split (s sep : string) : option (list string) :=
  match sep with
  | "" => None
  | _ => Some (split_from sep 0 s)
  end.

(** [sep.join(items)]. *)
Fixpoint join (sep : string) (items : list string) : string :=
  match items with
  | [] => ""
  | [x] => x
  | x :: rest => x +:+ sep +:+ join sep rest
  end.

(** A scan used to locate occurrences: nowhere in [s] does the character
    [a] stand before the character [b] or at the end of [s], so no string
    that starts with [a] then [b] begins inside [s], whatever follows [s]. *)
Fixpoint never_begins (a b : ascii) (s : string) : bool :=
  match s with
  | "" => true
  | String c s' =>
      (negb (Ascii.eqb c a)
       || match s' with
          | String d _ => negb (Ascii.eqb d b)
          | "" => false
          end)
      && never_begins a b s'
  end.

(** Truthiness of an [Optional[str]]: [None] and [""] are false. *)
Definition truthy (o : option string) : bool :=
  match o with
  | Some (String _ _) => true
  | _ => false
  end.

(** [s[n:]] for a non-negative literal [n]. *)
Fixpoint drop (n : nat) (s : string) : string :=
  match n, s with
  | O, _ => s
  | S m, String _ s' => drop m s'
  | S _, "" => ""
  end.

(** The ASCII characters [str.isspace] accepts: tab to carriage return,
    the four separators 28 to 31, and the space. *)
Definition is_space (c : ascii) : bool :=
  let n := nat_of_ascii c in
  ((9 <=? n)%nat && (n <=? 13)%nat) || ((28 <=? n)%nat && (n <=? 32)%nat).

(** [s.lstrip()], [s.rstrip()] and [s.strip()] on ASCII white space. *)
Fixpoint lstrip (s : string) : string :=
  match s with
  | "" => ""
  | String c s' => if is_space c then lstrip s' else s
  end.

Fixpoint rstrip (s : string) : string :=
  match s with
  | "" => ""
  | String c s' =>
      match rstrip s' with
      | "" => if is_space c then "" else String c ""
      | t => String c t
      end
  end.

Definition strip (s : string) : string := rstrip (lstrip s).

End Py.

(** ** The chat context *)

Module Chat.

(** An entry of [chat_history]: the dict [{"role": .., "content": ..}]. *)
Record Message := mkMessage { role : string; content : string }.

Record ChatContext := mkChatContext {
  user_id : string;
  username : string;
  chat_history : list Message
}.

(** [ChatContext(user_id=.., username=..)]: the history starts empty. *)
Definition new_context (uid uname : string) : ChatContext :=
  {| user_id := uid; username := uname; chat_history := [] |}.

(** [self.chat_history.append({"role": role, "content": content})] *)
Definition add_message (self : ChatContext) (r c : string) : ChatContext :=
  {| user_id := user_id self;
     username := username self;
     chat_history := chat_history self ++ [mkMessage r c] |}.

(** A sequence of [add_message(role, content)] calls. *)
Definition add_messages (self : ChatContext) (calls : list (string * string)) : ChatContext :=
  fold_left (fun ctx call => add_message ctx (fst call) (snd call)) calls self.

(** [self.chat_history[-max_messages:]], the entries the loop of
    [get_history_text] visits. *)
Definition history_window (self : ChatContext) (max_messages : Z) : list Message :=
  Py.slice_from (- max_messages) (chat_history self).

(** ["User" if entry["role"] == "user" else "System"] *)
Definition role_display (entry : Message) : string :=
  if String.eqb (role entry) "user" then "User" else "System".

Definition history_header : string := Py.nl +:+ "CHAT HISTORY:" +:+ Py.nl.

(** The body of the [for] loop: [history_text += f"{role_display}: {entry['content']}\n"]. *)
Definition append_entry (history_text : string) (entry : Message) : string :=
  history_text +:+ (role_display entry +:+ ": " +:+ content entry +:+ Py.nl).

Definition get_history_text (self : ChatContext) (max_messages : Z) : string :=
  match chat_history self with
  | [] => ""
  | _ => fold_left append_entry (history_window self max_messages) history_header
  end.

(** The default of [max_messages]. *)
Definition default_max_messages : Z := 5.

End Chat.

(** ** Agents, function tools and the runner boundary *)

Module Agents.
Import Chat.

(** A [@function_tool]: it receives the run's context object (the
    [wrapper.context] the caller passed, shared, hence threaded through)
    and its argument, and returns text. *)
Record FunctionTool := mkTool {
  tool_name : string;
  on_invoke : ChatContext -> string -> ChatContext * string
}.

(** [Agent[ChatContext](name=.., instructions=.., model=.., tools=..,
    handoffs=..)].  Delegates are constructor arguments: an agent is
    built after the agents it hands off to. *)
Inductive Agent : Type := mkAgent {
  name : string;
  instructions : string;
  model : option string;
  tools : list FunctionTool;
  handoffs : list Agent
}.

(** [agent.instructions = text] *)
Definition set_instructions (agent : Agent) (text : string) : Agent :=
  mkAgent (name agent) text (model agent) (tools agent) (handoffs agent).

(** The longest chain of delegates below an agent. *)
Fixpoint height (agent : Agent) : nat :=
  match agent with
  | mkAgent _ _ _ _ hs => list_max (map (fun h => S (height h)) hs)
  end.

(** What the reasoning engine answers when consulted: a final text, a
    call of one of the current agent's tools, a handoff to one of its
    delegates, or a failure of the call itself (network, timeout,
    cancellation). *)
Inductive Decision :=
| FinalOutput (text : string)
| ToolCall (tool arg : string)
| HandoffTo (target : string)
| EngineRaises.

Inductive RunError :=
| EngineFailure
| UnknownTool (tool : string)
| UnknownHandoff (target : string)
| MaxTurnsExceeded.

(** How [await Runner.run(..)] ends: [result.final_output], or an
    exception. *)
Inductive Outcome :=
| Completed (final_output : string)
| Raised (e : RunError).

Definition find_tool (n : string) (ts : list FunctionTool) : option FunctionTool :=
  List.find (fun t => String.eqb (tool_name t) n) ts.

Definition find_agent (n : string) (hs : list Agent) : option Agent :=
  List.find (fun a => String.eqb (name a) n) hs.

Section Runner.

(** The runner and the engine behind it are the library's, not the
    repository's: the engine is a parameter, consulted with the current
    agent's name and instructions, the turn's input and the tool results
    gathered so far; [max_turns] is the runner's step budget. *)
Variable decide : string -> string -> string -> list string -> Decision.
Variable max_turns : nat.

(** The run threads the context through the tools it invokes and records
    the names of the agents handed off to. *)
Fixpoint run_loop (turns : nat) (current : Agent) (input : string)
    (results chain : list string) (ctx : ChatContext)
  : ChatContext * list string * Outcome :=
  match turns with
  | O => (ctx, chain, Raised MaxTurnsExceeded)
  | S turns' =>
      match decide (name current) (instructions current) input results with
      | FinalOutput text => (ctx, chain, Completed text)
      | ToolCall tool arg =>
          match find_tool tool (tools current) with
          | None => (ctx, chain, Raised (UnknownTool tool))
          | Some t =>
              let (ctx', text) := on_invoke t ctx arg in
              run_loop turns' current input (results ++ [text]) chain ctx'
          end
      | HandoffTo target =>
          match find_agent target (handoffs current) with
          | None => (ctx, chain, Raised (UnknownHandoff target))
          | Some delegate =>
              run_loop turns' delegate input results (chain ++ [target]) ctx
          end
      | EngineRaises => (ctx, chain, Raised EngineFailure)
      end
  end.

(** [Runner.run(starting_agent=.., input=.., context=..)] *)
Definition Runner_run (starting_agent : Agent) (input : string) (ctx : ChatContext)
  : ChatContext * list string * Outcome :=
  run_loop max_turns starting_agent input [] [] ctx.

End Runner.

(** A tool that leaves the context object as it found it. *)
Definition tool_read_only (t : FunctionTool) : Prop :=
  forall ctx arg, fst (on_invoke t ctx arg) = ctx.

(** Every tool reachable from an agent is read-only. *)
Inductive tools_read_only : Agent -> Prop :=
| tools_read_only_intro agent :
    Forall tool_read_only (tools agent) ->
    Forall tools_read_only (handoffs agent) ->
    tools_read_only agent.

End Agents.

(** ** One turn *)

Module Turn.
Import Chat Agents.

Definition placeholder : string := "{{CHAT_HISTORY}}".

(** The instructions of a turn:
    [instructions.replace("{{CHAT_HISTORY}}", ctx.get_history_text())]. *)
Definition render (template : string) (ctx : ChatContext) : string :=
  Py.replace template placeholder (get_history_text ctx default_max_messages).

(** "Update instructions with current history":
[[
    history_text = ctx.get_history_text()
    current_instructions = triage_agent.instructions.replace("{{CHAT_HISTORY}}", history_text)
    triage_agent.instructions = current_instructions
]]
    The agent object is updated in place; [history_text] stays in scope. *)
Definition render_step (ctx : ChatContext) (triage_agent : Agent) : Agent * string :=
  let history_text := get_history_text ctx default_max_messages in
  let current_instructions := Py.replace (instructions triage_agent) placeholder history_text in
  (set_instructions triage_agent current_instructions, history_text).

(** "Reset template placeholder for next iteration":
[[
    triage_agent.instructions = triage_agent.instructions.replace(history_text, "{{CHAT_HISTORY}}")
]] *)
Definition reset_step (triage_agent : Agent) (history_text : string) : Agent :=
  set_instructions triage_agent
    (Py.replace (instructions triage_agent) history_text placeholder).

(** The objects a turn leaves behind, the handoffs its run followed, and
    how it ended. *)
Record TurnEnd := mkTurnEnd {
  end_ctx : ChatContext;
  end_agent : Agent;
  end_chain : list string;
  end_outcome : Outcome
}.

Section WithRunner.
Variable decide : string -> string -> string -> list string -> Decision.
Variable max_turns : nat.

(** [process_message(ctx, message, triage_agent)], which is also the body
    of the [while] loop of the console programs.  An exception of the
    awaited run leaves the function at the [await]: the statements after
    it are not executed, and the two objects stay as they are then. *)
Definition process_message (ctx : ChatContext) (message : string) (triage_agent : Agent)
  : TurnEnd :=
  let ctx := add_message ctx "user" message in
  let (triage_agent, history_text) := render_step ctx triage_agent in
  let '(ctx, chain, result) := Runner_run decide max_turns triage_agent message ctx in
  match result with
  | Raised e => mkTurnEnd ctx triage_agent chain (Raised e)
  | Completed response =>
      let ctx := add_message ctx "system" response in
      let triage_agent := reset_step triage_agent history_text in
      mkTurnEnd ctx triage_agent chain (Completed response)
  end.

(** The words that end the console loop: [user_input.lower() in ["exit", "bye", "quit"]]. *)
Definition is_exit (user_input : string) : bool :=
  existsb (String.eqb (Py.lower user_input)) ["exit"; "bye"; "quit"].

(** The [while True] loop of [main] over the lines typed: it stops at an
    exit word, and an exception of a turn ends the program. *)
Fixpoint main_loop (inputs : list string) (ctx : ChatContext) (triage_agent : Agent)
  : ChatContext * Agent * option RunError :=
  match inputs with
  | [] => (ctx, triage_agent, None)
  | user_input :: rest =>
      if is_exit user_input then (ctx, triage_agent, None)
      else
        let t := process_message ctx user_input triage_agent in
        match end_outcome t with
        | Raised e => (end_ctx t, end_agent t, Some e)
        | Completed _ => main_loop rest (end_ctx t) (end_agent t)
        end
  end.

End WithRunner.

End Turn.

(** ** [6_simple_chat/main.py] *)

Module SimpleChat.
Import Chat Agents.

Section Program.
(** [os.getenv], the process environment. *)
Variable getenv : string -> option string.

(** [api_key[:5] if api_key else 'Not set'] *)
Definition key_preview (api_key : option string) : string :=
  if Py.truthy api_key then Py.take 5 (default "" api_key) else "Not set".

Definition get_jokes : FunctionTool :=
  mkTool "get_jokes" (fun ctx topic =>
    let api_key := getenv "JOKES_API_KEY" in
    (ctx, "Here's a joke about " +:+ topic +:+ " for user " +:+ username ctx
          +:+ "... (API Key: " +:+ key_preview api_key +:+ "...)")).

Definition get_btc_price : FunctionTool :=
  mkTool "get_btc_price" (fun ctx _ =>
    let api_key := getenv "BTC_API_KEY" in
    (ctx, "Current Bitcoin price for " +:+ username ctx
          +:+ ": $XX,XXX.XX (API Key: " +:+ key_preview api_key +:+ "...)")).

(** [os.getenv("MODEL_NAME", "o3-mini")] *)
Definition model_name : string := default "o3-mini" (getenv "MODEL_NAME").

Definition btc_agent : Agent :=
  mkAgent "Bitcoin Agent" "Provide the current Bitcoin price when requested"
          (Some model_name) [get_btc_price] [].

Definition jokes_agent : Agent :=
  mkAgent "Jokes Agent" "Tell jokes about the topic requested by the user"
          (Some model_name) [get_jokes] [].

(** The triple-quoted instructions of the triage agent, line by line. *)
Definition triage_instructions : string :=
  "" +:+ Py.nl +:+
  "        You determine which agent to use based on the user's history and current request." +:+ Py.nl +:+
  "        " +:+ Py.nl +:+
  "        USER PROFILE:" +:+ Py.nl +:+
  "        - The user has asked about Bitcoin twice in the last few days" +:+ Py.nl +:+
  "        - The user usually asks for jokes on Fridays" +:+ Py.nl +:+
  "        " +:+ Py.nl +:+
  "        Use the Bitcoin agent for questions about cryptocurrencies and prices." +:+ Py.nl +:+
  "        Use the Jokes agent for humor or entertainment requests." +:+ Py.nl +:+
  "        Respond directly for general questions." +:+ Py.nl +:+
  "        " +:+ Py.nl +:+
  "        {{CHAT_HISTORY}}" +:+ Py.nl +:+
  "        ".

(** The text before and after the placeholder. *)
Definition triage_prologue : string :=
  "" +:+ Py.nl +:+
  "        You determine which agent to use based on the user's history and current request." +:+ Py.nl +:+
  "        " +:+ Py.nl +:+
  "        USER PROFILE:" +:+ Py.nl +:+
  "        - The user has asked about Bitcoin twice in the last few days" +:+ Py.nl +:+
  "        - The user usually asks for jokes on Fridays" +:+ Py.nl +:+
  "        " +:+ Py.nl +:+
  "        Use the Bitcoin agent for questions about cryptocurrencies and prices." +:+ Py.nl +:+
  "        Use the Jokes agent for humor or entertainment requests." +:+ Py.nl +:+
  "        Respond directly for general questions." +:+ Py.nl +:+
  "        " +:+ Py.nl +:+
  "        ".

Definition triage_epilogue : string := Py.nl +:+ "        ".

Definition triage_agent : Agent :=
  mkAgent "Triage Agent" triage_instructions None [] [btc_agent; jokes_agent].

(** [ChatContext(user_id=user_id, username=username)] with both read from
    the environment. *)
Definition initial_context : ChatContext :=
  new_context (default "default_id" (getenv "USER_ID"))
              (default "default_user" (getenv "USERNAME")).

End Program.

(** [main()] over the lines typed at the prompt. *)
Definition main (getenv : string -> option string)
    (decide : string -> string -> string -> list string -> Decision)
    (max_turns : nat) (inputs : list string) :=
  Turn.main_loop decide max_turns inputs (initial_context getenv) (triage_agent getenv).

End SimpleChat.

(** ** [7_simple_chat_with_apis/main.py] *)

Module ApiChat.
Import Chat Agents.

Section Program.
(** The text a tool returns when its body asks the network or the clock:
    it is determined by the tool, the [username] of the context (the only
    thing these bodies read from it) and the argument. *)
Variable external_text : string -> string -> string -> string.

Definition external_tool (n : string) : FunctionTool :=
  mkTool n (fun ctx arg => (ctx, external_text n (username ctx) arg)).

Definition get_joke : FunctionTool := external_tool "get_joke".
Definition get_btc_price : FunctionTool := external_tool "get_btc_price".
Definition get_weather : FunctionTool := external_tool "get_weather".
Definition get_time : FunctionTool := external_tool "get_time".

(** [search_news] is simulated in the source: four fixed headlines. *)
Definition simulated_headlines (query : string) : list string :=
  [ "New developments in " +:+ query +:+ " research announced today";
    "Experts debate the future of " +:+ query +:+ " in global markets";
    "Five things you need to know about " +:+ query +:+ " this week";
    "How " +:+ query +:+ " is changing the landscape of its industry" ].

Definition search_news : FunctionTool :=
  mkTool "search_news" (fun ctx query =>
    (ctx, "Here are some headlines about '" +:+ query +:+ "' for " +:+ username ctx
          +:+ ":" +:+ Py.nl +:+ Py.nl
          +:+ Py.join Py.nl (map (fun headline => "- " +:+ headline) (simulated_headlines query)))).

Definition btc_agent : Agent :=
  mkAgent "Bitcoin Agent" "Provide the current Bitcoin price when requested"
          None [get_btc_price] [].
Definition jokes_agent : Agent :=
  mkAgent "Jokes Agent" "Tell jokes about the topic requested by the user"
          None [get_joke] [].
Definition weather_agent : Agent :=
  mkAgent "Weather Agent"
          "Provide weather information for cities around the world. Always require a city name."
          None [get_weather] [].
Definition time_agent : Agent :=
  mkAgent "Time Agent" "Provide current time information" None [get_time] [].
Definition news_agent : Agent :=
  mkAgent "News Agent" "Search for and provide news headlines about specific topics"
          None [search_news] [].

Definition triage_instructions : string :=
  "" +:+ Py.nl +:+
  "        You determine which agent to use based on the user's history and current request." +:+ Py.nl +:+
  "        " +:+ Py.nl +:+
  "        USER PROFILE:" +:+ Py.nl +:+
  "        - You're talking to a user who might ask about various topics" +:+ Py.nl +:+
  "        - Try to route requests to the appropriate specialized agent" +:+ Py.nl +:+
  "        " +:+ Py.nl +:+
  "        AVAILABLE AGENTS:" +:+ Py.nl +:+
  "        - Bitcoin Agent: Use for questions about Bitcoin prices and cryptocurrency" +:+ Py.nl +:+
  "        - Jokes Agent: Use for requests for jokes or humor" +:+ Py.nl +:+
  "        - Weather Agent: Use for questions about weather in different cities. Note that a city must be specified." +:+ Py.nl +:+
  "        - Time Agent: Use for questions about the current time" +:+ Py.nl +:+
  "        - News Agent: Use for requests about news on specific topics" +:+ Py.nl +:+
  "        " +:+ Py.nl +:+
  "        Respond directly for general questions that don't fit these categories." +:+ Py.nl +:+
  "        " +:+ Py.nl +:+
  "        {{CHAT_HISTORY}}" +:+ Py.nl +:+
  "        ".

(** The text before and after the placeholder. *)
Definition triage_prologue : string :=
  "" +:+ Py.nl +:+
  "        You determine which agent to use based on the user's history and current request." +:+ Py.nl +:+
  "        " +:+ Py.nl +:+
  "        USER PROFILE:" +:+ Py.nl +:+
  "        - You're talking to a user who might ask about various topics" +:+ Py.nl +:+
  "        - Try to route requests to the appropriate specialized agent" +:+ Py.nl +:+
  "        " +:+ Py.nl +:+
  "        AVAILABLE AGENTS:" +:+ Py.nl +:+
  "        - Bitcoin Agent: Use for questions about Bitcoin prices and cryptocurrency" +:+ Py.nl +:+
  "        - Jokes Agent: Use for requests for jokes or humor" +:+ Py.nl +:+
  "        - Weather Agent: Use for questions about weather in different cities. Note that a city must be specified." +:+ Py.nl +:+
  "        - Time Agent: Use for questions about the current time" +:+ Py.nl +:+
  "        - News Agent: Use for requests about news on specific topics" +:+ Py.nl +:+
  "        " +:+ Py.nl +:+
  "        Respond directly for general questions that don't fit these categories." +:+ Py.nl +:+
  "        " +:+ Py.nl +:+
  "        ".

Definition triage_epilogue : string := Py.nl +:+ "        ".

Definition triage_agent : Agent :=
  mkAgent "Triage Agent" triage_instructions None []
          [btc_agent; jokes_agent; weather_agent; time_agent; news_agent].

Definition initial_context : ChatContext := new_context "user123" "Guest".

End Program.

(** [main()] over the lines typed at the prompt. *)
Definition main (external_text : string -> string -> string -> string)
    (decide : string -> string -> string -> list string -> Decision)
    (max_turns : nat) (inputs : list string) :=
  Turn.main_loop decide max_turns inputs initial_context (triage_agent external_text).

End ApiChat.

(** ** [8_simple_chat_with_gradio/main.py] *)

Module Gradio.
Import Chat Agents.

(** A decoded JSON document, as [json.loads] returns it.  A float carries
    its printed form. *)
Inductive json :=
| JNull
| JBool (b : bool)
| JInt (n : Z)
| JFloat (printed : string)
| JStr (s : string)
| JArr (items : list json)
| JObj (fields : gmap string json).

(** [json.loads(config_json)] is the standard library's: the registration
    is modelled on what the decoder returned for the text. *)
Inductive Loaded :=
| JSONDecodeError
| Decoded (config : json).

Definition type_name (v : json) : string :=
  match v with
  | JNull => "NoneType"
  | JBool _ => "bool"
  | JInt _ => "int"
  | JFloat _ => "float"
  | JStr _ => "str"
  | JArr _ => "list"
  | JObj _ => "dict"
  end.

(** The exceptions the [try] body can raise on a decoded document, with
    the texts CPython 3.11 gives them. *)
Inductive PyException :=
| TypeError (msg : string)
| AttributeError (msg : string)
| KeyError (key : string).

(** [str(e)] *)
Definition exception_text (e : PyException) : string :=
  match e with
  | TypeError msg => msg
  | AttributeError msg => msg
  | KeyError key => "'" +:+ key +:+ "'"
  end.

Definition no_attribute (v : json) (attr : string) : PyException :=
  AttributeError ("'" +:+ type_name v +:+ "' object has no attribute '" +:+ attr +:+ "'").

(** The registry of custom tools is a module-level dict that registration
    updates in place; a statement of the [try] body runs on the registry
    and either raises or returns, and the registry keeps what was written
    before a raise. *)
Abbreviation Registry := (gmap string FunctionTool).

Definition M (A : Type) : Type := Registry -> Registry * (PyException + A).

Definition ret {A} (a : A) : M A := fun reg => (reg, inr a).
Definition raise {A} (e : PyException) : M A := fun reg => (reg, inl e).
Definition bind {A B} (m : M A) (k : A -> M B) : M B :=
  fun reg =>
    match m reg with
    | (reg', inl e) => (reg', inl e)
    | (reg', inr a) => k a reg'
    end.

Notation "'do' x <- m ;; k" := (bind m (fun x => k))
  (at level 10, x name, m at level 99, k at level 200).

(** [key in v] *)
Definition py_in (key : string) (v : json) : M bool :=
  match v with
  | JObj fields => ret (bool_decide (is_Some (fields !! key)))
  | JArr items =>
      ret (existsb (fun x => match x with JStr s => String.eqb s key | _ => false end) items)
  | JStr s => ret (Py.contains key s)
  | _ => raise (TypeError ("argument of type '" +:+ type_name v +:+ "' is not iterable"))
  end.

(** [v.get(key, fallback)] *)
Definition py_get (v : json) (key : string) (fallback : json) : M json :=
  match v with
  | JObj fields => ret (default fallback (fields !! key))
  | _ => raise (no_attribute v "get")
  end.

(** [v.lower()] *)
Definition py_lower (v : json) : M string :=
  match v with
  | JStr s => ret (Py.lower s)
  | _ => raise (no_attribute v "lower")
  end.

(** [v[key]] for a string key *)
Definition py_getitem (v : json) (key : string) : M json :=
  match v with
  | JObj fields =>
      match fields !! key with
      | Some x => ret x
      | None => raise (KeyError key)
      end
  | JStr _ => raise (TypeError "string indices must be integers, not 'str'")
  | JArr _ => raise (TypeError "list indices must be integers or slices, not str")
  | _ => raise (TypeError ("'" +:+ type_name v +:+ "' object is not subscriptable"))
  end.

Section Program.
(** See [ApiChat]: the text of a tool that asks the network or the clock. *)
Variable external_text : string -> string -> string -> string.
(** [repr] of a decoded value that is not a string. *)
Variable py_repr : json -> string.

(** [str(v)], as an f-string formats a field. *)
Definition py_str (v : json) : string :=
  match v with
  | JStr s => s
  | _ => py_repr v
  end.

Definition external_tool (n : string) : FunctionTool :=
  mkTool n (fun ctx arg => (ctx, external_text n (username ctx) arg)).

Definition get_time : FunctionTool := external_tool "get_time".
Definition get_weather : FunctionTool := external_tool "get_weather".
Definition get_joke : FunctionTool := external_tool "get_joke".
Definition get_bitcoin_price : FunctionTool := external_tool "get_bitcoin_price".
Definition get_cat_fact : FunctionTool := external_tool "get_cat_fact".

(** [custom_api_tools["cat_fact"] = get_cat_fact; return get_cat_fact] *)
Definition register_cat_fact_tool : M FunctionTool :=
  fun custom_api_tools => (<["cat_fact" := get_cat_fact]> custom_api_tools, inr get_cat_fact).

(** The body of the [try] after decoding. *)
Definition register_decoded (config : json) : M string :=
  do has_name <- py_in "name" config ;;
  do missing <- (if negb has_name then ret true
                 else do has_url <- py_in "url" config ;; ret (negb has_url)) ;;
  if (missing : bool) then
    ret "Error: API configuration must include 'name' and 'url' fields"
  else
    do type_field <- py_get config "type" (JStr "") ;;
    do tool_type <- py_lower type_field ;;
    if String.eqb tool_type "cat_fact" then
      do tool <- register_cat_fact_tool ;;
      do name_field <- py_getitem config "name" ;;
      ret ("Successfully registered '" +:+ py_str name_field +:+ "' API tool")
    else
      ret ("Error: Unsupported API tool type '" +:+ tool_type
           +:+ "'. Currently supported types: cat_fact").

(** [register_api_tool_from_config(config_json)]: the registry afterwards
    and the message returned. *)
Definition register_api_tool_from_config (config_json : Loaded) (custom_api_tools : Registry)
  : Registry * string :=
  match config_json with
  | JSONDecodeError => (custom_api_tools, "Error: Invalid JSON configuration")
  | Decoded config =>
      match register_decoded config custom_api_tools with
      | (custom_api_tools', inr message) => (custom_api_tools', message)
      | (custom_api_tools', inl e) =>
          (custom_api_tools', "Error registering API tool: " +:+ exception_text e)
      end
  end.

(** [create_agents(model_name)] reads the registry. *)
Section CreateAgents.
Variable custom_api_tools : Registry.
Variable model_name : string.

Definition weather_agent : Agent :=
  mkAgent "Weather Agent"
          "Provide weather information for cities around the world. Always require a city name."
          (Some model_name) [get_weather] [].
Definition joke_agent : Agent :=
  mkAgent "Joke Agent" "Tell jokes when requested by the user."
          (Some model_name) [get_joke] [].
Definition bitcoin_agent : Agent :=
  mkAgent "Bitcoin Agent" "Provide the current Bitcoin price when requested."
          (Some model_name) [get_bitcoin_price] [].
Definition time_agent : Agent :=
  mkAgent "Time Agent" "Provide current time information."
          (Some model_name) [get_time] [].
Definition cat_fact_agent (tool : FunctionTool) : Agent :=
  mkAgent "Cat Fact Agent" "Provide random facts about cats when requested."
          (Some model_name) [tool] [].

(** The four built-in agents, then the agent of each registered tool named
    ["cat_fact"] (a dict holds a key once). *)
Definition specialized_agents : list Agent :=
  [weather_agent; joke_agent; bitcoin_agent; time_agent]
  ++ match custom_api_tools !! "cat_fact" with
     | Some tool => [cat_fact_agent tool]
     | None => []
     end.

Definition agent_descriptions : list string :=
  [ "- Weather Agent: Use for questions about weather in different cities. Always require a city name.";
    "- Joke Agent: Use for requests for jokes or humor.";
    "- Bitcoin Agent: Use for questions about Bitcoin prices.";
    "- Time Agent: Use for questions about the current time." ]
  ++ (if bool_decide (is_Some (custom_api_tools !! "cat_fact"))
      then ["- Cat Fact Agent: Use for requests about cat facts."]
      else []).

Definition agent_instructions : string :=
  Py.nl +:+ "AVAILABLE AGENTS:" +:+ Py.nl +:+ Py.join Py.nl agent_descriptions.

(** The instructions are an f-string here: [{agent_instructions}] is
    interpolated, and the doubled braces are the f-string's escape for a
    single brace. *)
Definition triage_instructions : string :=
  "" +:+ Py.nl +:+
  "        You determine which agent to use based on the user's history and current request." +:+ Py.nl +:+
  "        " +:+ Py.nl +:+
  "        USER PROFILE:" +:+ Py.nl +:+
  "        - You're talking to a user who might ask about various topics" +:+ Py.nl +:+
  "        - Try to route requests to the appropriate specialized agent" +:+ Py.nl +:+
  "        " +:+ agent_instructions +:+ Py.nl +:+
  "        " +:+ Py.nl +:+
  "        Respond directly for general questions that don't fit these categories." +:+ Py.nl +:+
  "        " +:+ Py.nl +:+
  "        {CHAT_HISTORY}" +:+ Py.nl +:+
  "        ".

Definition create_agents : Agent :=
  mkAgent "Triage Agent" triage_instructions (Some model_name) [] specialized_agents.

End CreateAgents.

(** [create_agents()], with the default of [model_name]. *)
Definition default_agents (custom_api_tools : Registry) : Agent :=
  create_agents custom_api_tools "o3-mini".

(** [ChatContext(user_id="gradio_user", username="User")] *)
Definition initial_context : ChatContext := new_context "gradio_user" "User".

End Program.

End Gradio.

(** ** The chat window of [8_simple_chat_with_gradio/main.py] *)

Module GradioApp.
Import Chat Agents Gradio.

(** What [build_gradio_interface] and the module keep between messages:
    the module-level registry, and the triage agent and the context that
    [message_handler] closes over. *)
Record App := mkApp {
  app_tools : gmap string FunctionTool;
  app_agent : Agent;
  app_ctx : ChatContext
}.

Section Handler.
Variable external_text : string -> string -> string -> string.
Variable py_repr : json -> string.
(** [json.loads], the standard library's decoder. *)
Variable json_loads : string -> Loaded.
Variable decide : string -> string -> string -> list string -> Decision.
Variable max_turns : nat.

(** The state when the window opens: the registry is the empty dict the
    module starts with, [triage_agent = create_agents()] and
    [ctx = ChatContext(user_id="gradio_user", username="User")]. *)
Definition build_gradio_interface : App :=
  mkApp ∅ (default_agents external_text ∅) initial_context.

(** [message_handler(message, history)] (which [greet] forwards to): the
    state afterwards and what is returned or raised.  A message that
    starts with ["!register "] is a command: the rest of it, stripped, is
    registered and the triage agent is created anew; any other message is
    a turn of the chat. *)
Definition message_handler (app : App) (message : string) : App * Outcome :=
  if Py.startswith message "!register " then
    let config_json := Py.strip (Py.drop 10 message) in
    let (custom_api_tools, result) :=
      register_api_tool_from_config external_text py_repr
        (json_loads config_json) (app_tools app) in
    let triage_agent := default_agents external_text custom_api_tools in
    (mkApp custom_api_tools triage_agent (app_ctx app), Completed result)
  else
    let t := Turn.process_message decide max_turns (app_ctx app) message (app_agent app) in
    (mkApp (app_tools app) (Turn.end_agent t) (Turn.end_ctx t), Turn.end_outcome t).

(** The messages sent to the window, one after the other; an exception of
    a turn is shown in the window and the state stays. *)
Definition handle_all (messages : list string) (app : App) : App :=
  fold_left (fun app message => fst (message_handler app message)) messages app.

End Handler.

End GradioApp.

(** ** The three programs together *)

Module Programs.

(** The instructions a program gives its triage agent. *)
Definition triage_instructions (text : string) : Prop :=
  text = SimpleChat.triage_instructions
  \/ text = ApiChat.triage_instructions
  \/ exists custom_api_tools, text = Gradio.triage_instructions custom_api_tools.

End Programs.

(** ** Sample runs *)

Module Samples.
Import Chat Agents.

(** An environment with no variable set. *)
Definition empty_env : string -> option string := fun _ => None.

(** The context of the console chat after the user typed a first line. *)
Definition first_line : ChatContext :=
  add_message (SimpleChat.initial_context empty_env) "user" "hi".

(** An engine that sends the triage agent to the jokes agent, lets that
    agent call its tool once and answers with what the tool returned. *)
Definition joke_engine (agent_name instr input : string) (results : list string) : Decision :=
  match results with
  | [] => if String.eqb agent_name "Triage Agent" then HandoffTo "Jokes Agent"
          else ToolCall "get_jokes" "cats"
  | text :: _ => FinalOutput text
  end.

(** An engine whose call fails. *)
Definition failing_engine (agent_name instr input : string) (results : list string) : Decision :=
  EngineRaises.

(** A chain of [n] relays before a last agent; the instructions of a relay
    name its delegate. *)
Fixpoint relay (n : nat) : Agent :=
  match n with
  | O => mkAgent "Last Agent" "" None [] []
  | S m => mkAgent "Relay Agent" (name (relay m)) None [] [relay m]
  end.

(** An engine that hands off wherever the instructions say, and answers
    at the last agent. *)
Definition relay_engine (agent_name instr input : string) (results : list string) : Decision :=
  if String.eqb agent_name "Last Agent" then FinalOutput "done" else HandoffTo instr.





(** The descriptor of the example shown in the chat window:
    [{"name": "Cat Facts API", "type": "cat_fact"}]. *)
Definition shown_example : Gradio.json :=
  Gradio.JObj (<["name" := Gradio.JStr "Cat Facts API"]>
              (<["type" := Gradio.JStr "cat_fact"]> ∅)).

(** The same with a [url], and no [inputSchema]. *)
Definition cat_facts_config : Gradio.json :=
  Gradio.JObj (<["name" := Gradio.JStr "Cat Facts API"]>
              (<["url" := Gradio.JStr "https://catfact.ninja/fact"]>
              (<["type" := Gradio.JStr "cat_fact"]> ∅))).

(** The same with the type in capitals. *)
Definition capitals_config : Gradio.json :=
  Gradio.JObj (<["name" := Gradio.JStr "Cat Facts API"]>
              (<["url" := Gradio.JStr "https://catfact.ninja/fact"]>
              (<["type" := Gradio.JStr "CAT_FACT"]> ∅))).

(** A descriptor of another type. *)
Definition dog_facts_config : Gradio.json :=
  Gradio.JObj (<["name" := Gradio.JStr "Dog Facts API"]>
              (<["url" := Gradio.JStr "https://dogapi.dog/api/v2/facts"]>
              (<["type" := Gradio.JStr "dog_fact"]> ∅))).

(** A descriptor whose type is a number. *)
Definition numbered_config : Gradio.json :=
  Gradio.JObj (<["name" := Gradio.JStr "Third API"]>
              (<["url" := Gradio.JStr "https://example.org/3"]>
              (<["type" := Gradio.JInt 3]> ∅))).

(** A chat of seven entries, more than the window shows. *)
Definition long_chat : ChatContext :=
  add_messages (new_context "u1" "ann")
    [("user", "one"); ("system", "two"); ("user", "three"); ("system", "four");
     ("user", "five"); ("system", "six"); ("user", "seven")].

(** An environment where the two API keys are set. *)
Definition keys_env (variable : string) : option string :=
  if String.eqb variable "JOKES_API_KEY" then Some "jk-123456789"
  else if String.eqb variable "BTC_API_KEY" then Some "btc"
  else None.

(** A decoder that knows one text. *)
Definition one_text_decoder (text : string) : Gradio.Loaded :=
  if String.eqb text "cat facts" then Gradio.Decoded cat_facts_config
  else Gradio.JSONDecodeError.

(** An engine that asks for the cat fact agent, and answers once there. *)
Definition cat_engine (agent_name instr input : string) (results : list string) : Decision :=
  if String.eqb agent_name "Cat Fact Agent" then FinalOutput "Cats sleep a lot."
  else HandoffTo "Cat Fact Agent".

(** Stand-ins for the two parameters of the graphical program. *)
Definition no_text : string -> string -> string -> string := fun _ _ _ => "".
Definition no_repr : Gradio.json -> string := fun _ => "".

End Samples.

(* ================================================================== *)
(** * Part II: properties *)
(* ================================================================== *)

(** ** Facts about the Python primitives *)

Module PyFacts.
Import Py.

Lemma sapp_nil_l (t : string) : "" +:+ t = t.
Proof. reflexivity. Qed.

Lemma sapp_cons (c : ascii) (s t : string) : String c s +:+ t = String c (s +:+ t).
Proof. reflexivity. Qed.

Lemma sapp_nil_r (s : string) : s +:+ "" = s.
Proof. induction s as [|c s IH]; [reflexivity|]. rewrite sapp_cons, IH. reflexivity. Qed.

Lemma sapp_assoc (a b c : string) : (a +:+ b) +:+ c = a +:+ (b +:+ c).
Proof.
  induction a as [|x a IH]; [reflexivity|].
  rewrite !sapp_cons, IH. reflexivity.
Qed.

Lemma sapp_inv_head (p s t : string) : p +:+ s = p +:+ t -> s = t.
Proof.
  induction p as [|c p IH]; [trivial|].
  rewrite !sapp_cons. intros H. injection H as H. auto.
Qed.


Lemma prefix_nil (s : string) : String.prefix "" s = true.
Proof. destruct s; reflexivity. Qed.

Lemma prefix_cons (c d : ascii) (p s : string) :
  String.prefix (String c p) (String d s)
  = if ascii_dec c d then String.prefix p s else false.
Proof. reflexivity. Qed.

Lemma prefix_cons_same (c : ascii) (p s : string) :
  String.prefix (String c p) (String c s) = String.prefix p s.
Proof. rewrite prefix_cons. destruct (ascii_dec c c); congruence. Qed.

Lemma prefix_cons_diff (c d : ascii) (p s : string) :
  c <> d -> String.prefix (String c p) (String d s) = false.
Proof. intros H. rewrite prefix_cons. destruct (ascii_dec c d); congruence. Qed.

Lemma prefix_app (p s : string) : String.prefix p (p +:+ s) = true.
Proof.
  induction p as [|c p IH]; [apply prefix_nil|].
  rewrite sapp_cons, prefix_cons_same. exact IH.
Qed.

(** A prefix splits the string. *)
Lemma prefix_split (p s : string) :
  String.prefix p s = true -> exists t, s = p +:+ t.
Proof.
  revert s. induction p as [|c p IH]; intros s H.
  - exists s. reflexivity.
  - destruct s as [|d s]; [discriminate|].
    rewrite prefix_cons in H. destruct (ascii_dec c d) as [->|]; [|discriminate].
    destruct (IH s H) as [t ->]. exists t. reflexivity.
Qed.

(** A prefix of a prefix. *)
Lemma prefix_app_l (p q s : string) :
  String.prefix (p +:+ q) s = true -> String.prefix p s = true.
Proof.
  intros H. destruct (prefix_split _ _ H) as [t ->].
  rewrite sapp_assoc. apply prefix_app.
Qed.

(** *** [find] *)

Lemma find_nil (s : string) : find "" s = Some 0.
Proof. destruct s; reflexivity. Qed.

Lemma find_cons_eq (sub : string) (c : ascii) (s : string) :
  find sub (String c s)
  = if String.prefix sub (String c s) then Some 0 else option_map S (find sub s).
Proof. reflexivity. Qed.

Lemma find_empty_eq (sub : string) :
  find sub "" = if String.prefix sub "" then Some 0 else None.
Proof. reflexivity. Qed.

Lemma find_none_prefix (sub s : string) :
  find sub s = None -> String.prefix sub s = false.
Proof.
  destruct s as [|c s]; [rewrite find_empty_eq|rewrite find_cons_eq];
    destruct (String.prefix sub _); congruence.
Qed.

Lemma find_none_tail (sub : string) (c : ascii) (s : string) :
  find sub (String c s) = None -> find sub s = None.
Proof.
  rewrite find_cons_eq. destruct (String.prefix sub _); [discriminate|].
  destruct (find sub s); [discriminate|reflexivity].
Qed.

Lemma find_prefix (sub s : string) :
  String.prefix sub s = true -> find sub s = Some 0.
Proof.
  intros H. destruct s as [|c s]; [rewrite find_empty_eq|rewrite find_cons_eq];
    rewrite H; reflexivity.
Qed.

(** [find] returns an occurrence. *)
Lemma find_some_split (sub s : string) (n : nat) :
  find sub s = Some n ->
  exists pre suf, s = pre +:+ sub +:+ suf /\ String.length pre = n.
Proof.
  revert n. induction s as [|c s IH]; intros n H.
  - rewrite find_empty_eq in H. destruct (String.prefix sub "") eqn:Hp; [|discriminate].
    injection H as <-. destruct (prefix_split _ _ Hp) as [t Ht].
    exists "", t. split; [exact Ht|reflexivity].
  - rewrite find_cons_eq in H. destruct (String.prefix sub (String c s)) eqn:Hp.
    + injection H as <-. destruct (prefix_split _ _ Hp) as [t Ht].
      exists "", t. split; [exact Ht|reflexivity].
    + destruct (find sub s) as [m|] eqn:Hf; [|discriminate].
      injection H as <-. destruct (IH m eq_refl) as (pre & suf & -> & Hlen).
      exists (String c pre), suf. split; [reflexivity|]. simpl. congruence.
Qed.

(** An occurrence is found, at or before its position. *)
Lemma find_app_some (sub pre suf : string) :
  exists n, find sub (pre +:+ sub +:+ suf) = Some n /\ n <= String.length pre.
Proof.
  induction pre as [|c pre IH].
  - rewrite sapp_nil_l. exists 0. split; [|simpl; lia].
    apply find_prefix, prefix_app.
  - rewrite sapp_cons, find_cons_eq.
    destruct (String.prefix sub _).
    + exists 0. split; [reflexivity|simpl; lia].
    + destruct IH as (n & -> & Hn). exists (S n). split; [reflexivity|simpl; lia].
Qed.

Lemma contains_app (sub pre suf : string) : contains sub (pre +:+ sub +:+ suf) = true.
Proof.
  unfold contains. destruct (find_app_some sub pre suf) as (n & -> & _). reflexivity.
Qed.

(** [sub in s] holds exactly when [s] has an occurrence of [sub]. *)
Lemma contains_spec (sub s : string) :
  contains sub s = true <-> exists pre suf, s = pre +:+ sub +:+ suf.
Proof.
  split.
  - unfold contains. destruct (find sub s) as [n|] eqn:H; [|discriminate].
    intros _. destruct (find_some_split _ _ _ H) as (pre & suf & E & _). eauto.
  - intros (pre & suf & ->). apply contains_app.
Qed.

Lemma contains_false_find (sub s : string) :
  contains sub s = false <-> find sub s = None.
Proof. unfold contains. destruct (find sub s); split; congruence. Qed.

(** *** [replace] *)

Lemma replace_from_nil (old new : string) (k : nat) : replace_from old new k "" = "".
Proof. reflexivity. Qed.

Lemma replace_from_skip (old new p s : string) :
  replace_from old new (String.length p) (p +:+ s) = replace_from old new 0 s.
Proof.
  induction p as [|c p IH]; [reflexivity|].
  rewrite sapp_cons. simpl. exact IH.
Qed.

Lemma replace_from_cons (old new : string) (c : ascii) (s : string) :
  replace_from old new 0 (String c s)
  = if String.prefix old (String c s)
    then new +:+ replace_from old new (String.length old - 1) s
    else String c (replace_from old new 0 s).
Proof. reflexivity. Qed.

(** At an occurrence: emit [new] and go on after it. *)
Lemma replace_from_match (old new s : string) :
  old <> "" ->
  replace_from old new 0 (old +:+ s) = new +:+ replace_from old new 0 s.
Proof.
  intros Hne. destruct old as [|c old]; [congruence|].
  rewrite sapp_cons, replace_from_cons, <- sapp_cons, prefix_app.
  change (String.length (String c old) - 1) with (String.length old - 0).
  rewrite Nat.sub_0_r, replace_from_skip. reflexivity.
Qed.

(** Elsewhere: copy the character. *)
Lemma replace_from_copy (old new : string) (c : ascii) (s : string) :
  String.prefix old (String c s) = false ->
  replace_from old new 0 (String c s) = String c (replace_from old new 0 s).
Proof. intros H. rewrite replace_from_cons, H. reflexivity. Qed.

Lemma replace_from_absent (old new s : string) :
  find old s = None -> replace_from old new 0 s = s.
Proof.
  induction s as [|c s IH]; intros H; [reflexivity|].
  rewrite replace_from_copy by (apply find_none_prefix; exact H).
  rewrite IH by (eapply find_none_tail; exact H). reflexivity.
Qed.

(** Up to the leftmost occurrence the text is copied. *)
Lemma replace_from_first (old new pre suf : string) :
  old <> "" ->
  find old (pre +:+ old +:+ suf) = Some (String.length pre) ->
  replace_from old new 0 (pre +:+ old +:+ suf)
  = pre +:+ new +:+ replace_from old new 0 suf.
Proof.
  intros Hne. induction pre as [|c pre IH]; intros H.
  - rewrite !sapp_nil_l. apply replace_from_match. exact Hne.
  - rewrite sapp_cons in *. rewrite find_cons_eq in H.
    destruct (String.prefix old _) eqn:Hp; [discriminate|].
    rewrite replace_from_copy by exact Hp.
    destruct (find old (pre +:+ old +:+ suf)) as [m|] eqn:Hf; [|discriminate].
    simpl in H. injection H as ->. rewrite IH by reflexivity. reflexivity.
Qed.

Lemma replace_nonempty (s old new : string) :
  old <> "" -> replace s old new = replace_from old new 0 s.
Proof. destruct old; [congruence|reflexivity]. Qed.

(** [s.replace(old, new)] is [s] when [old] does not occur in [s]. *)
Lemma replace_absent (s old new : string) :
  find old s = None -> replace s old new = s.
Proof.
  intros H. destruct old as [|c old].
  - rewrite find_nil in H. discriminate.
  - apply replace_from_absent. exact H.
Qed.

(** With a single occurrence of [old], at [pre]. *)
Lemma replace_single (old new pre suf : string) :
  old <> "" ->
  find old (pre +:+ old +:+ suf) = Some (String.length pre) ->
  find old suf = None ->
  replace (pre +:+ old +:+ suf) old new = pre +:+ new +:+ suf.
Proof.
  intros Hne Hfirst Hsuf.
  rewrite replace_nonempty by exact Hne.
  rewrite replace_from_first by assumption.
  rewrite replace_from_absent by exact Hsuf. reflexivity.
Qed.

(** Replacing a single occurrence and replacing it back. *)
Lemma replace_there_and_back (a b pre suf : string) :
  a <> "" -> b <> "" ->
  find a (pre +:+ a +:+ suf) = Some (String.length pre) ->
  find a suf = None ->
  find b (pre +:+ b +:+ suf) = Some (String.length pre) ->
  find b suf = None ->
  replace (replace (pre +:+ a +:+ suf) a b) b a = pre +:+ a +:+ suf.
Proof.
  intros Ha Hb Hfa Hsa Hfb Hsb.
  rewrite (replace_single a b pre suf) by assumption.
  apply replace_single; assumption.
Qed.

(** Where [old] occurs and [new] starts with another character than
    [old], replacing changes the string. *)
Lemma replace_from_changes (old new s : string) (c d : ascii) (old' new' : string) :
  old = String c old' -> new = String d new' -> c <> d ->
  replace_from old new 0 s = s -> find old s = None.
Proof.
  intros -> -> Hcd. induction s as [|x s IH]; intros H.
  - reflexivity.
  - rewrite find_cons_eq. rewrite replace_from_cons in H.
    destruct (String.prefix (String c old') (String x s)) eqn:Hp.
    + exfalso. rewrite sapp_cons in H. injection H as Hx _.
      rewrite prefix_cons in Hp. destruct (ascii_dec c x); congruence.
    + injection H as H. rewrite (IH H). reflexivity.
Qed.

(** *** Locating an occurrence by its first two characters *)

Lemma never_begins_cons (a b c : ascii) (s : string) :
  never_begins a b (String c s) = true ->
  never_begins a b s = true
  /\ forall rest tail, String.prefix (String a (String b rest)) (String c (s +:+ tail)) = false.
Proof.
  intros H. simpl in H. apply andb_prop in H as [Hc Hs]. split; [exact Hs|].
  intros rest tail. rewrite prefix_cons.
  destruct (ascii_dec a c) as [<-|]; [|reflexivity].
  rewrite Ascii.eqb_refl in Hc. simpl in Hc.
  destruct s as [|d s]; [discriminate|].
  rewrite sapp_cons. apply prefix_cons_diff. intros <-.
  rewrite Ascii.eqb_refl in Hc. discriminate.
Qed.

Lemma find_past (a b : ascii) (rest pre tail : string) :
  never_begins a b pre = true ->
  find (String a (String b rest)) (pre +:+ String a (String b rest) +:+ tail)
  = Some (String.length pre).
Proof.
  induction pre as [|c pre IH]; intros H.
  - rewrite sapp_nil_l. apply find_prefix, prefix_app.
  - apply never_begins_cons in H as [Hpre Hc].
    rewrite sapp_cons, find_cons_eq, Hc, (IH Hpre). reflexivity.
Qed.

Lemma find_never (a b : ascii) (rest s : string) :
  never_begins a b s = true -> find (String a (String b rest)) s = None.
Proof.
  induction s as [|c s IH]; intros H; [reflexivity|].
  apply never_begins_cons in H as [Hs Hc].
  specialize (Hc rest ""). rewrite sapp_nil_r in Hc.
  rewrite find_cons_eq, Hc, (IH Hs). reflexivity.
Qed.

(** *** [split], [join] and [replace] *)











(** *** Slicing by characters *)

Lemma take_spec (s : string) :
  forall n,
    exists rest,
      s = take n s +:+ rest
      /\ len (take n s) = Nat.min n (len s)
      /\ match rest with
         | "" => True
         | String c _ => is_continuation c = false
         end.
Proof.
  induction s as [|c s IH]; intros n.
  - exists "". repeat split.  simpl. lia.
  - simpl take. simpl len. destruct (is_continuation c) eqn:Hc.
    + destruct (IH n) as (rest & Hs & Hl & Hr). exists rest. split; [|split].
      * rewrite sapp_cons. congruence.
      * simpl. rewrite Hc. simpl. exact Hl.
      * exact Hr.
    + destruct n as [|n].
      * exists (String c s). repeat split. exact Hc.
      * destruct (IH n) as (rest & Hs & Hl & Hr). exists rest. split; [|split].
        -- rewrite sapp_cons. congruence.
        -- simpl. rewrite Hc, Hl. simpl. reflexivity.
        -- exact Hr.
Qed.

End PyFacts.

(** ** The history and its window *)

Module ChatFacts.
Import Py PyFacts Chat.

Lemma add_messages_history (calls : list (string * string)) (ctx : ChatContext) :
  chat_history (add_messages ctx calls)
  = chat_history ctx ++ map (fun call => mkMessage (fst call) (snd call)) calls.
Proof.
  revert ctx. induction calls as [|call calls IH]; intros ctx.
  - simpl. rewrite List.app_nil_r. reflexivity.
  - change (add_messages ctx (call :: calls))
      with (add_messages (add_message ctx (fst call) (snd call)) calls).
    rewrite IH. simpl. rewrite <- List.app_assoc. reflexivity.
Qed.

(** A slice from a negative start keeps that many last elements. *)
Lemma slice_from_last {A} (k : Z) (l : list A) :
  (0 < k)%Z ->
  slice_from (- k) l = skipn (length l - Z.to_nat k) l.
Proof.
  intros Hk. unfold slice_from.
  destruct (Z.ltb_spec (- k) 0) as [_|H]; [|lia].
  f_equal. lia.
Qed.

(** A slice from 0 is the whole list. *)
Lemma slice_from_zero {A} (l : list A) : slice_from 0 l = l.
Proof. unfold slice_from. simpl. destruct (length l); reflexivity. Qed.

(** For a window size of at least one, the window is the last
    [min k (length history)] entries, in their order. *)
Lemma history_window_last (ctx : ChatContext) (k : Z) :
  (1 <= k)%Z ->
  exists before,
    chat_history ctx = before ++ history_window ctx k
    /\ length (history_window ctx k) = Nat.min (Z.to_nat k) (length (chat_history ctx)).
Proof.
  intros Hk. unfold history_window. rewrite slice_from_last by lia.
  exists (firstn (length (chat_history ctx) - Z.to_nat k) (chat_history ctx)).
  split.
  - symmetry. apply firstn_skipn.
  - rewrite length_skipn. lia.
Qed.

(** The same, after any sequence of [add_message] calls on a new context. *)
Lemma history_window_after_calls (uid uname : string) (calls : list (string * string)) (k : Z) :
  (1 <= k)%Z ->
  let sent := map (fun call => mkMessage (fst call) (snd call)) calls in
  history_window (add_messages (new_context uid uname) calls) k
  = skipn (length sent - Nat.min (Z.to_nat k) (length sent)) sent.
Proof.
  intros Hk sent. unfold history_window.
  rewrite add_messages_history. simpl chat_history. rewrite List.app_nil_l.
  rewrite slice_from_last by lia. fold sent. f_equal. lia.
Qed.


(** With a window size of 0 the slice is [chat_history[-0:]]: all of it. *)
Lemma history_window_zero (ctx : ChatContext) :
  history_window ctx 0 = chat_history ctx.
Proof. unfold history_window. apply slice_from_zero. Qed.


(** The loop appends one line per entry to what it started from. *)
Lemma fold_append_entry (entries : list Message) (acc : string) :
  fold_left append_entry entries acc
  = acc +:+ String.concat ""
      (map (fun e => role_display e +:+ ": " +:+ content e +:+ nl) entries).
Proof.
  revert acc. induction entries as [|e entries IH]; intros acc.
  - simpl. rewrite sapp_nil_r. reflexivity.
  - simpl fold_left. rewrite IH. unfold append_entry.
    rewrite sapp_assoc. f_equal.
    destruct entries as [|e' entries]; [simpl; rewrite sapp_nil_r; reflexivity|].
    reflexivity.
Qed.


Lemma get_history_text_nonempty (ctx : ChatContext) (k : Z) :
  chat_history ctx <> [] ->
  get_history_text ctx k
  = history_header +:+ String.concat ""
      (map (fun e => role_display e +:+ ": " +:+ content e +:+ nl) (history_window ctx k)).
Proof.
  intros H. unfold get_history_text.
  destruct (chat_history ctx) eqn:E; [congruence|]. apply fold_append_entry.
Qed.

(** A block starts with a line feed. *)
Lemma get_history_text_starts (ctx : ChatContext) (k : Z) :
  chat_history ctx <> [] ->
  exists rest, get_history_text ctx k = String (ascii_of_nat 10) rest.
Proof.
  intros H. rewrite get_history_text_nonempty by exact H.
  eexists. unfold history_header, nl. rewrite !sapp_cons. reflexivity.
Qed.

Lemma add_message_nonempty (ctx : ChatContext) (r c : string) :
  chat_history (add_message ctx r c) <> [].
Proof. simpl. destruct (chat_history ctx); discriminate. Qed.

(** C3, at a window size of 0.  After [add_message("user", "a")] and
    [add_message("system", "b")] the history holds two entries; the slice
    [chat_history[-0:]] is [chat_history[0:]], so the window holds both
    entries, not the last [min 0 2 = 0] of them, and the block lists
    both. *)
Theorem window_size_zero_returns_whole_history :
  let ctx := add_messages (new_context "u1" "ann") [("user", "a"); ("system", "b")] in
  history_window ctx 0 = [mkMessage "user" "a"; mkMessage "system" "b"]
  /\ length (history_window ctx 0) = 2
  /\ length (history_window ctx 0) <> Nat.min 0 (length (chat_history ctx))
  /\ get_history_text ctx 0
     = history_header +:+ "User: a" +:+ nl +:+ "System: b" +:+ nl.
Proof. repeat split. discriminate. Qed.

End ChatFacts.

(** ** Rendering the instructions and putting the placeholder back *)

Module RenderFacts.
Import Py PyFacts Chat ChatFacts Agents Turn.

Lemma placeholder_nonempty : placeholder <> "".
Proof. discriminate. Qed.

Lemma instructions_set (agent : Agent) (text : string) :
  instructions (set_instructions agent text) = text.
Proof. reflexivity. Qed.

Lemma render_step_instructions (ctx : ChatContext) (agent : Agent) :
  instructions (fst (render_step ctx agent)) = render (instructions agent) ctx.
Proof. reflexivity. Qed.

Lemma render_step_history_text (ctx : ChatContext) (agent : Agent) :
  snd (render_step ctx agent) = get_history_text ctx default_max_messages.
Proof. reflexivity. Qed.

Lemma render_absent (template : string) (ctx : ChatContext) :
  contains placeholder template = false -> render template ctx = template.
Proof.
  intros H. apply replace_absent. apply contains_false_find. exact H.
Qed.

(** Rendering changes a template that has a placeholder, when there is a
    history. *)
Lemma render_fixed_absent (template : string) (ctx : ChatContext) :
  chat_history ctx <> [] ->
  render template ctx = template -> find placeholder template = None.
Proof.
  intros Hne H. unfold render in H.
  rewrite replace_nonempty in H by exact placeholder_nonempty.
  destruct (get_history_text_starts ctx default_max_messages Hne) as [rest Hrest].
  eapply (replace_from_changes placeholder _ template "{"%char (ascii_of_nat 10));
    [reflexivity | exact Hrest | discriminate | exact H].
Qed.



(** C8.  A template with no occurrence of the placeholder is rendered as
    itself, whatever the context holds. *)
Theorem render_without_placeholder (template : string) (ctx : ChatContext) :
  contains placeholder template = false ->
  render template ctx = template.
Proof. apply render_absent. Qed.

Lemma render_without_placeholder_witness :
  render (Gradio.triage_instructions ∅) Samples.first_line
  = Gradio.triage_instructions ∅.
Proof.
  apply (render_without_placeholder (Gradio.triage_instructions ∅) Samples.first_line).
  vm_compute. reflexivity.
Defined.

(** C1, as stated, fails in the console chat after a first line: the render
    step stores the rendered text in the agent, which then differs from
    the instructions the agent had. *)
Lemma render_step_overwrites_instructions :
  instructions (fst (render_step Samples.first_line (SimpleChat.triage_agent Samples.empty_env)))
  <> instructions (SimpleChat.triage_agent Samples.empty_env).
Proof. apply String.eqb_neq. vm_compute. reflexivity. Qed.

(** C1, amended.  In a turn, after the user message is added, the render
    step stores the rendered text (the instructions with every placeholder
    replaced by the history text) in the agent's [instructions]; the name,
    model, tools and delegates stay; and the stored instructions are the
    same before and after the step exactly when they hold no placeholder. *)
Theorem render_step_stores_rendered_text (ctx : ChatContext) (message : string) (agent : Agent) :
  let ctx1 := add_message ctx "user" message in
  let agent1 := fst (render_step ctx1 agent) in
  instructions agent1
  = replace (instructions agent) placeholder (get_history_text ctx1 default_max_messages)
  /\ (name agent1, model agent1, tools agent1, handoffs agent1)
     = (name agent, model agent, tools agent, handoffs agent)
  /\ (instructions agent1 = instructions agent
      <-> contains placeholder (instructions agent) = false).
Proof.
  intros ctx1 agent1. split; [reflexivity|]. split; [reflexivity|].
  unfold agent1. rewrite render_step_instructions. split.
  - intros H. apply contains_false_find.
    apply (render_fixed_absent _ ctx1); [apply add_message_nonempty|exact H].
  - apply render_absent.
Qed.



(** *** The templates of the console programs *)

Lemma simple_chat_template_split :
  SimpleChat.triage_instructions
  = SimpleChat.triage_prologue +:+ placeholder +:+ SimpleChat.triage_epilogue.
Proof. vm_compute. reflexivity. Qed.

Lemma api_chat_template_split :
  ApiChat.triage_instructions
  = ApiChat.triage_prologue +:+ placeholder +:+ ApiChat.triage_epilogue.
Proof. vm_compute. reflexivity. Qed.

(** A block starts with a line feed and the C of its header. *)
Lemma get_history_text_begins (ctx : ChatContext) (k : Z) :
  chat_history ctx <> [] ->
  exists rest, get_history_text ctx k = String (ascii_of_nat 10) (String "C" rest).
Proof.
  intros H. rewrite get_history_text_nonempty by exact H.
  eexists. unfold history_header, nl. rewrite !sapp_cons. reflexivity.
Qed.

(** In a text where no line starts with a C, around a single placeholder,
    the reset step undoes the render step, for every history. *)
Lemma render_then_reset_indented (pre suf : string) (ctx : ChatContext) :
  never_begins (ascii_of_nat 10) "C" pre = true ->
  never_begins (ascii_of_nat 10) "C" suf = true ->
  find placeholder (pre +:+ placeholder +:+ suf) = Some (String.length pre) ->
  find placeholder suf = None ->
  chat_history ctx <> [] ->
  let history_text := get_history_text ctx default_max_messages in
  replace (replace (pre +:+ placeholder +:+ suf) placeholder history_text)
          history_text placeholder
  = pre +:+ placeholder +:+ suf.
Proof.
  intros Hpre Hsuf Hp Hps Hne history_text.
  destruct (get_history_text_begins ctx default_max_messages Hne) as [rest Hrest].
  apply replace_there_and_back; try assumption; try exact placeholder_nonempty;
    unfold history_text; rewrite Hrest.
  - discriminate.
  - apply find_past. exact Hpre.
  - apply find_never. exact Hsuf.
Qed.

(** For the triage instructions of the two console programs, the reset
    step undoes the render step whatever the (non-empty) history holds:
    every line of these instructions is indented, so a history block, which
    starts with a line feed and a C, occurs in the rendered text only where
    the placeholder was. *)
Theorem console_templates_round_trip (ctx : ChatContext) :
  chat_history ctx <> [] ->
  let history_text := get_history_text ctx default_max_messages in
  replace (replace SimpleChat.triage_instructions placeholder history_text)
          history_text placeholder
  = SimpleChat.triage_instructions
  /\ replace (replace ApiChat.triage_instructions placeholder history_text)
             history_text placeholder
     = ApiChat.triage_instructions.
Proof.
  intros Hne history_text. split.
  - rewrite simple_chat_template_split.
    apply render_then_reset_indented; try exact Hne; vm_compute; reflexivity.
  - rewrite api_chat_template_split.
    apply render_then_reset_indented; try exact Hne; vm_compute; reflexivity.
Qed.

Lemma console_templates_round_trip_witness :
  replace (replace SimpleChat.triage_instructions placeholder
                   (get_history_text Samples.first_line default_max_messages))
          (get_history_text Samples.first_line default_max_messages) placeholder
  = SimpleChat.triage_instructions
  /\ replace (replace ApiChat.triage_instructions placeholder
                      (get_history_text Samples.first_line default_max_messages))
             (get_history_text Samples.first_line default_max_messages) placeholder
     = ApiChat.triage_instructions.
Proof. apply (console_templates_round_trip Samples.first_line). discriminate. Defined.

(** *** The instructions of the graphical program *)

(** The instructions [create_agents] builds hold [{CHAT_HISTORY}] in
    single braces, so the placeholder the turn looks for is not there and
    the render step leaves them as they are: no history reaches the
    triage agent of that program. *)
Lemma gradio_instructions_without_placeholder (custom_api_tools : gmap string FunctionTool) :
  contains placeholder (Gradio.triage_instructions custom_api_tools) = false.
Proof.
  unfold Gradio.triage_instructions, Gradio.agent_instructions, Gradio.agent_descriptions.
  destruct (bool_decide _); vm_compute; reflexivity.
Qed.

Lemma gradio_render_step_identity (external_text : string -> string -> string -> string)
    (custom_api_tools : gmap string FunctionTool) (model_name : string) (ctx : ChatContext) :
  instructions (fst (render_step ctx
                       (Gradio.create_agents external_text custom_api_tools model_name)))
  = Gradio.triage_instructions custom_api_tools.
Proof.
  rewrite render_step_instructions. apply render_absent.
  apply gradio_instructions_without_placeholder.
Qed.

(** No line of these instructions starts with a C either, so the reset
    step finds no history block in them. *)
Lemma gradio_reset_identity (custom_api_tools : gmap string FunctionTool) (ctx : ChatContext) :
  chat_history ctx <> [] ->
  replace (Gradio.triage_instructions custom_api_tools)
          (get_history_text ctx default_max_messages) placeholder
  = Gradio.triage_instructions custom_api_tools.
Proof.
  intros Hne.
  destruct (get_history_text_begins ctx default_max_messages Hne) as [rest ->].
  apply replace_absent, find_never.
  unfold Gradio.triage_instructions, Gradio.agent_instructions, Gradio.agent_descriptions.
  destruct (bool_decide _); vm_compute; reflexivity.
Qed.

(** For the instructions of each of the three programs and every non-empty
    history, the reset step undoes the render step. *)
Theorem program_templates_round_trip (template : string) (ctx : ChatContext) :
  Programs.triage_instructions template ->
  chat_history ctx <> [] ->
  let history_text := get_history_text ctx default_max_messages in
  replace (replace template placeholder history_text) history_text placeholder = template.
Proof.
  intros Htemplate Hne history_text.
  destruct Htemplate as [-> | [-> | [custom_api_tools ->]]].
  - apply (console_templates_round_trip ctx Hne).
  - apply (console_templates_round_trip ctx Hne).
  - rewrite (replace_absent (Gradio.triage_instructions custom_api_tools))
      by (apply contains_false_find, gradio_instructions_without_placeholder).
    apply gradio_reset_identity. exact Hne.
Qed.

End RenderFacts.

(** ** Runs and turns *)

Module TurnFacts.
Import Py PyFacts Chat ChatFacts Agents Turn.

Lemma find_tool_Forall (P : FunctionTool -> Prop) (n : string) (ts : list FunctionTool)
    (t : FunctionTool) :
  Forall P ts -> find_tool n ts = Some t -> P t.
Proof.
  unfold find_tool. induction 1 as [|x ts Hx _ IH]; simpl; [discriminate|].
  destruct (String.eqb (tool_name x) n); [intros [= <-]; exact Hx|exact IH].
Qed.

Lemma find_agent_Forall (P : Agent -> Prop) (n : string) (hs : list Agent) (a : Agent) :
  Forall P hs -> find_agent n hs = Some a -> P a.
Proof.
  unfold find_agent. induction 1 as [|x hs Hx _ IH]; simpl; [discriminate|].
  destruct (String.eqb (name x) n); [intros [= <-]; exact Hx|exact IH].
Qed.

Lemma tools_read_only_set_instructions (agent : Agent) (text : string) :
  tools_read_only agent -> tools_read_only (set_instructions agent text).
Proof. intros [a Ht Hh]. constructor; assumption. Qed.

Lemma height_delegates (agent : Agent) :
  Forall (fun h => S (height h) <= height agent) (handoffs agent).
Proof.
  destruct agent as [n i m ts hs]. simpl handoffs.
  change (height (mkAgent n i m ts hs)) with (list_max (map (fun h => S (height h)) hs)).
  induction hs as [|h hs IH]; constructor.
  - simpl. lia.
  - eapply Forall_impl; [exact IH|]. simpl. intros a Ha. lia.
Qed.

Section Runs.
Variable decide : string -> string -> string -> list string -> Decision.

(** A run through read-only tools hands the context back as it got it. *)
Lemma run_loop_context (turns : nat) :
  forall (current : Agent) (input : string) (results chain : list string) (ctx : ChatContext),
    tools_read_only current ->
    fst (fst (run_loop decide turns current input results chain ctx)) = ctx.
Proof.
  induction turns as [|turns IH]; intros current input results chain ctx Hro;
    [reflexivity|].
  simpl. destruct Hro as [current Htools Hdelegates].
  destruct (decide _ _ _ _) as [text|tool arg|target|]; try reflexivity.
  - destruct (find_tool tool (tools current)) as [t|] eqn:Ht; [|reflexivity].
    pose proof (find_tool_Forall _ _ _ _ Htools Ht ctx arg) as Hro.
    destruct (on_invoke t ctx arg) as [ctx' text]. simpl in Hro. subst ctx'.
    apply IH. constructor; assumption.
  - destruct (find_agent target (handoffs current)) as [delegate|] eqn:Hd; [|reflexivity].
    apply IH. exact (find_agent_Forall _ _ _ _ Hdelegates Hd).
Qed.

(** The chain of a run grows by the handoffs followed, and there are no
    more of them than delegates below the current agent. *)
Lemma run_loop_chain (turns : nat) :
  forall (current : Agent) (input : string) (results chain : list string) (ctx : ChatContext),
    length (snd (fst (run_loop decide turns current input results chain ctx)))
    <= length chain + height current.
Proof.
  induction turns as [|turns IH]; intros current input results chain ctx;
    [simpl; lia|].
  simpl. destruct (decide _ _ _ _) as [text|tool arg|target|]; try (simpl; lia).
  - destruct (find_tool tool (tools current)) as [t|]; [|simpl; lia].
    destruct (on_invoke t ctx arg) as [ctx' text]. apply IH.
  - destruct (find_agent target (handoffs current)) as [delegate|] eqn:Hd; [|simpl; lia].
    pose proof (find_agent_Forall _ _ _ _ (height_delegates current) Hd) as Hh.
    simpl in Hh. etransitivity; [apply IH|]. rewrite List.length_app. simpl. lia.
Qed.

Variable max_turns : nat.

(** What a turn leaves, by the way its run ended. *)
Lemma process_message_completed (ctx : ChatContext) (message : string) (agent : Agent)
    (response : string) :
  end_outcome (process_message decide max_turns ctx message agent) = Completed response ->
  let ctx1 := add_message ctx "user" message in
  let run := Runner_run decide max_turns (fst (render_step ctx1 agent)) message ctx1 in
  snd run = Completed response
  /\ end_ctx (process_message decide max_turns ctx message agent)
     = add_message (fst (fst run)) "system" response
  /\ end_agent (process_message decide max_turns ctx message agent)
     = reset_step (fst (render_step ctx1 agent)) (snd (render_step ctx1 agent)).
Proof.
  unfold process_message. cbv zeta.
  destruct (render_step (add_message ctx "user" message) agent) as [agent1 history_text].
  simpl fst. simpl snd.
  destruct (Runner_run decide max_turns agent1 message _) as [[ctx2 chain] [r|e]];
    simpl; [|discriminate].
  intros [= ->]. repeat split.
Qed.

Lemma process_message_raised (ctx : ChatContext) (message : string) (agent : Agent)
    (e : RunError) :
  end_outcome (process_message decide max_turns ctx message agent) = Raised e ->
  let ctx1 := add_message ctx "user" message in
  let run := Runner_run decide max_turns (fst (render_step ctx1 agent)) message ctx1 in
  snd run = Raised e
  /\ end_ctx (process_message decide max_turns ctx message agent) = fst (fst run)
  /\ end_agent (process_message decide max_turns ctx message agent)
     = fst (render_step ctx1 agent).
Proof.
  unfold process_message. cbv zeta.
  destruct (render_step (add_message ctx "user" message) agent) as [agent1 history_text].
  simpl fst.
  destruct (Runner_run decide max_turns agent1 message _) as [[ctx2 chain] [r|e']];
    simpl; [discriminate|].
  intros [= ->]. repeat split.
Qed.

Lemma process_message_chain (ctx : ChatContext) (message : string) (agent : Agent) :
  let ctx1 := add_message ctx "user" message in
  end_chain (process_message decide max_turns ctx message agent)
  = snd (fst (Runner_run decide max_turns (fst (render_step ctx1 agent)) message ctx1)).
Proof.
  unfold process_message. cbv zeta.
  destruct (render_step (add_message ctx "user" message) agent) as [agent1 history_text].
  simpl fst.
  destruct (Runner_run decide max_turns agent1 message _) as [[ctx2 chain] [r|e']];
    reflexivity.
Qed.

(** The history a turn leaves when its tools leave the context alone. *)
Lemma completed_turn_history (ctx : ChatContext) (message : string) (agent : Agent)
    (response : string) :
  tools_read_only agent ->
  end_outcome (process_message decide max_turns ctx message agent) = Completed response ->
  chat_history (end_ctx (process_message decide max_turns ctx message agent))
  = chat_history ctx ++ [mkMessage "user" message; mkMessage "system" response].
Proof.
  intros Hro Hdone.
  destruct (process_message_completed _ _ _ _ Hdone) as (_ & -> & _).
  unfold Runner_run. rewrite run_loop_context.
  - simpl. rewrite <- List.app_assoc. reflexivity.
  - apply tools_read_only_set_instructions. exact Hro.
Qed.

Lemma raised_turn_history (ctx : ChatContext) (message : string) (agent : Agent)
    (e : RunError) :
  tools_read_only agent ->
  end_outcome (process_message decide max_turns ctx message agent) = Raised e ->
  chat_history (end_ctx (process_message decide max_turns ctx message agent))
  = chat_history ctx ++ [mkMessage "user" message].
Proof.
  intros Hro Hfail.
  destruct (process_message_raised _ _ _ _ Hfail) as (_ & -> & _).
  unfold Runner_run. rewrite run_loop_context.
  - reflexivity.
  - apply tools_read_only_set_instructions. exact Hro.
Qed.

End Runs.

Lemma height_set_instructions (agent : Agent) (text : string) :
  height (set_instructions agent text) = height agent.
Proof. destruct agent; reflexivity. Qed.

Lemma simple_chat_tools_read_only (getenv : string -> option string) :
  tools_read_only (SimpleChat.triage_agent getenv).
Proof.
  constructor; simpl; repeat constructor; intros ctx arg; reflexivity.
Qed.

Lemma api_chat_tools_read_only (external_text : string -> string -> string -> string) :
  tools_read_only (ApiChat.triage_agent external_text).
Proof.
  constructor; simpl; repeat constructor; intros ctx arg; reflexivity.
Qed.

Lemma gradio_tools_read_only (external_text : string -> string -> string -> string)
    (custom_api_tools : gmap string FunctionTool) (model_name : string) :
  (forall tool, custom_api_tools !! "cat_fact" = Some tool -> tool_read_only tool) ->
  tools_read_only (Gradio.create_agents external_text custom_api_tools model_name).
Proof.
  intros Hreg. unfold Gradio.create_agents.
  constructor; cbn [tools handoffs]; [constructor|].
  unfold Gradio.specialized_agents. apply Forall_app. split.
  - repeat constructor; intros ctx arg; reflexivity.
  - destruct (custom_api_tools !! "cat_fact") as [tool|] eqn:E; [|constructor].
    repeat constructor. simpl. apply Hreg. reflexivity.
Qed.

(** C4.  A completed turn whose tools leave the context alone adds two
    entries to the history and nothing else: the user's input with role
    [user], then the final response with role [system]; what the tools
    returned during the run is not in the history. *)
Theorem completed_turn_appends_input_then_response
    (decide : string -> string -> string -> list string -> Decision) (max_turns : nat)
    (ctx : ChatContext) (message : string) (agent : Agent) (response : string) :
  tools_read_only agent ->
  end_outcome (process_message decide max_turns ctx message agent) = Completed response ->
  chat_history (end_ctx (process_message decide max_turns ctx message agent))
  = chat_history ctx ++ [mkMessage "user" message; mkMessage "system" response].
Proof. apply completed_turn_history. Qed.

Lemma completed_turn_appends_input_then_response_witness :
  chat_history (end_ctx (process_message Samples.joke_engine 10
                           (SimpleChat.initial_context Samples.empty_env)
                           "tell me a joke" (SimpleChat.triage_agent Samples.empty_env)))
  = chat_history (SimpleChat.initial_context Samples.empty_env)
    ++ [mkMessage "user" "tell me a joke";
        mkMessage "system"
          "Here's a joke about cats for user default_user... (API Key: Not set...)"].
Proof.
  apply (completed_turn_appends_input_then_response Samples.joke_engine 10
           (SimpleChat.initial_context Samples.empty_env) "tell me a joke"
           (SimpleChat.triage_agent Samples.empty_env)).
  - apply simple_chat_tools_read_only.
  - vm_compute. reflexivity.
Defined.

(** C5, as stated, fails when the call of the engine fails in the first
    turn of the graphical chat, whose context outlives the turn: the turn
    ends with the exception, and the history then holds the user message
    and no response, which is neither the history before the turn nor that
    history with both entries. *)
Lemma failed_turn_keeps_user_message :
  let ctx := Gradio.initial_context in
  let t := process_message Samples.failing_engine 10 ctx "hello"
             (Gradio.default_agents Samples.no_text ∅) in
  end_outcome t = Raised EngineFailure
  /\ chat_history (end_ctx t) = [mkMessage "user" "hello"]
  /\ chat_history (end_ctx t) <> chat_history ctx
  /\ forall response,
       chat_history (end_ctx t)
       <> chat_history ctx ++ [mkMessage "user" "hello"; mkMessage "system" response].
Proof.
  cbv zeta. split; [vm_compute; reflexivity|]. split; [vm_compute; reflexivity|].
  split.
  - intros H. apply (f_equal (@length Message)) in H. vm_compute in H. discriminate.
  - intros response H. apply (f_equal (@length Message)) in H. vm_compute in H.
    discriminate.
Qed.

(** C5, amended.  The user message is appended before the run starts and
    the response after it returns, with nothing undone in between: a turn
    that completes leaves the history with the user message and the
    response appended, in that order, and a turn whose run raises leaves
    it with the user message appended and no response. *)
Theorem turn_history_by_outcome
    (decide : string -> string -> string -> list string -> Decision) (max_turns : nat)
    (ctx : ChatContext) (message : string) (agent : Agent) :
  tools_read_only agent ->
  chat_history (end_ctx (process_message decide max_turns ctx message agent))
  = chat_history ctx
    ++ mkMessage "user" message
       :: match end_outcome (process_message decide max_turns ctx message agent) with
          | Completed response => [mkMessage "system" response]
          | Raised _ => []
          end.
Proof.
  intros Hro.
  destruct (end_outcome (process_message decide max_turns ctx message agent))
    as [response|e] eqn:E.
  - apply completed_turn_history; assumption.
  - eapply raised_turn_history; eassumption.
Qed.

Lemma turn_history_by_outcome_witness :
  chat_history (end_ctx (process_message Samples.failing_engine 10
                           Gradio.initial_context "hello"
                           (Gradio.default_agents Samples.no_text ∅)))
  = chat_history Gradio.initial_context ++ [mkMessage "user" "hello"].
Proof.
  apply (turn_history_by_outcome Samples.failing_engine 10
           Gradio.initial_context "hello"
           (Gradio.default_agents Samples.no_text ∅)).
  apply gradio_tools_read_only. intros tool H. rewrite lookup_empty in H. discriminate.
Defined.

(** On a chain of nine relays a turn with a step budget of ten follows
    nine handoffs and completes with the last agent's answer. *)
Lemma nine_handoffs_complete :
  let t := process_message Samples.relay_engine 10
             (SimpleChat.initial_context Samples.empty_env) "hello" (Samples.relay 9) in
  length (end_chain t) = 9 /\ end_outcome t = Completed "done".
Proof. cbv zeta. split; vm_compute; reflexivity. Qed.

(** Relays hold no placeholder, so rendering leaves their instructions. *)
Lemma relay_name (n : nat) : name (Samples.relay n) = "Last Agent" \/ name (Samples.relay n) = "Relay Agent".
Proof. destruct n; [left|right]; reflexivity. Qed.

Lemma relay_run (n : nat) :
  forall (input : string) (results chain : list string) (ctx : ChatContext) (text : string),
    (n = 0 \/ text = instructions (Samples.relay n)) ->
    exists added,
      length added = n
      /\ run_loop Samples.relay_engine (S n) (set_instructions (Samples.relay n) text)
           input results chain ctx
         = (ctx, chain ++ added, Completed "done").
Proof.
  induction n as [|n IH]; intros input results chain ctx text Htext.
  - exists []. split; [reflexivity|]. simpl. rewrite List.app_nil_r. reflexivity.
  - destruct Htext as [Htext| ->]; [discriminate|].
    destruct (IH input results (chain ++ [name (Samples.relay n)]) ctx
                 (instructions (Samples.relay n)) (or_intror eq_refl))
      as (added & Hlen & Hrun).
    exists (name (Samples.relay n) :: added). split; [simpl; congruence|].
    assert (Hsame : set_instructions (Samples.relay n) (instructions (Samples.relay n))
                    = Samples.relay n) by (destruct (Samples.relay n); reflexivity).
    rewrite Hsame in Hrun.
    change (run_loop Samples.relay_engine (S (S n))
              (set_instructions (Samples.relay (S n)) (instructions (Samples.relay (S n))))
              input results chain ctx)
      with (match find_agent (name (Samples.relay n)) [Samples.relay n] with
            | None => (ctx, chain, Raised (UnknownHandoff (name (Samples.relay n))))
            | Some delegate =>
                run_loop Samples.relay_engine (S n) delegate input results
                  (chain ++ [name (Samples.relay n)]) ctx
            end).
    unfold find_agent. simpl List.find. rewrite String.eqb_refl.
    rewrite Hrun, <- List.app_assoc. reflexivity.
Qed.

(** There is no ceiling on handoffs: for every [n], a turn that starts at
    a chain of [n] relays follows [n] handoffs and completes. *)
Lemma handoff_chains_unbounded (n : nat) (ctx : ChatContext) (message : string) :
  let t := process_message Samples.relay_engine (S n) ctx message (Samples.relay n) in
  length (end_chain t) = n /\ end_outcome t = Completed "done".
Proof.
  cbv zeta. unfold process_message, render_step, Runner_run.
  assert (Hkeep : replace (instructions (Samples.relay n)) placeholder
                    (get_history_text (add_message ctx "user" message) default_max_messages)
                  = instructions (Samples.relay n)).
  { apply replace_absent. destruct n as [|n]; [reflexivity|].
    simpl instructions. destruct (relay_name n) as [-> | ->]; reflexivity. }
  rewrite Hkeep.
  destruct (relay_run n message [] [] (add_message ctx "user" message)
              (instructions (Samples.relay n))) as (added & Hlen & ->).
  - destruct n; [left; reflexivity|right; reflexivity].
  - simpl. split; [exact Hlen|reflexivity].
Qed.

(** The handoffs a turn follows are no more than the height of the
    delegate tree of the agent it starts from, and that height is 1 for
    the triage agent each of the three programs builds: a specialist has
    no delegates. *)
Theorem handoffs_bounded_by_delegate_tree :
  (forall (decide : string -> string -> string -> list string -> Decision)
          (max_turns : nat) (ctx : ChatContext) (message : string) (agent : Agent),
      length (end_chain (process_message decide max_turns ctx message agent))
      <= height agent)
  /\ (forall getenv, height (SimpleChat.triage_agent getenv) = 1)
  /\ (forall external_text, height (ApiChat.triage_agent external_text) = 1)
  /\ (forall external_text custom_api_tools model_name,
        height (Gradio.create_agents external_text custom_api_tools model_name) = 1).
Proof.
  split; [|split; [|split]].
  - intros decide max_turns ctx message agent.
    rewrite process_message_chain. unfold Runner_run.
    etransitivity; [apply run_loop_chain|].
    unfold render_step. simpl fst. rewrite height_set_instructions. simpl. lia.
  - reflexivity.
  - reflexivity.
  - intros external_text custom_api_tools model_name.
    unfold Gradio.create_agents, Gradio.specialized_agents.
    destruct (custom_api_tools !! "cat_fact"); reflexivity.
Qed.



End TurnFacts.

(** ** The registry of custom tools *)

Module RegistryFacts.
Import Py PyFacts Chat Agents Gradio.

Section Registration.
Variable external_text : string -> string -> string -> string.
Variable py_repr : json -> string.

Local Abbreviation register := (register_api_tool_from_config external_text py_repr).

Lemma bind_ret {A B} (a : A) (k : A -> M B) : bind (ret a) k = k a.
Proof. reflexivity. Qed.

Lemma bind_raise {A B} (e : PyException) (k : A -> M B) : bind (raise e) k = raise e.
Proof. reflexivity. Qed.

Lemma py_in_object (key : string) (fields : gmap string json) :
  py_in key (JObj fields) = ret (bool_decide (is_Some (fields !! key))).
Proof. reflexivity. Qed.

Lemma has_key_some (key : string) (fields : gmap string json) (v : json) :
  fields !! key = Some v -> bool_decide (is_Some (fields !! key)) = true.
Proof. intros ->. reflexivity. Qed.

Lemma has_key_none (key : string) (fields : gmap string json) :
  fields !! key = None -> bool_decide (is_Some (fields !! key)) = false.
Proof. intros ->. apply bool_decide_eq_false. intros [v Hv]. discriminate. Qed.

(** The [try] body on a document without [name] or without [url]. *)
Lemma register_decoded_missing_field (fields : gmap string json) :
  fields !! "name" = None \/ fields !! "url" = None ->
  register_decoded external_text py_repr (JObj fields)
  = ret "Error: API configuration must include 'name' and 'url' fields".
Proof.
  intros H. unfold register_decoded. rewrite py_in_object, bind_ret.
  destruct (fields !! "name") as [n|] eqn:Hn.
  - destruct H as [H|H]; [discriminate|].
    change (negb (bool_decide (is_Some (Some n)))) with false. cbv iota.
    rewrite py_in_object, bind_ret, bind_ret, (has_key_none _ _ H). reflexivity.
  - reflexivity.
Qed.

(** The [try] body on a document with both. *)
Lemma register_decoded_validated (fields : gmap string json) (n u : json) :
  fields !! "name" = Some n -> fields !! "url" = Some u ->
  register_decoded external_text py_repr (JObj fields)
  = match default (JStr "") (fields !! "type") with
    | JStr s =>
        if String.eqb (lower s) "cat_fact"
        then fun reg => (<["cat_fact" := get_cat_fact external_text]> reg,
                         inr ("Successfully registered '" +:+ py_str py_repr n +:+ "' API tool"))
        else ret ("Error: Unsupported API tool type '" +:+ lower s
                  +:+ "'. Currently supported types: cat_fact")
    | v => raise (no_attribute v "lower")
    end.
Proof.
  intros Hn Hu. unfold register_decoded.
  rewrite py_in_object, bind_ret, (has_key_some _ _ _ Hn).
  change (negb true) with false. cbv iota.
  rewrite py_in_object, bind_ret, bind_ret, (has_key_some _ _ _ Hu).
  change (negb true) with false. cbv iota.
  unfold py_get. rewrite bind_ret.
  destruct (default (JStr "") (fields !! "type")) as [| | | |s| |]; try reflexivity.
  unfold py_lower. rewrite bind_ret.
  destruct (String.eqb (lower s) "cat_fact"); [|reflexivity].
  unfold register_cat_fact_tool, py_getitem, bind. rewrite Hn. reflexivity.
Qed.

(** A document without [name] or without [url] is refused. *)
Lemma register_missing_field (fields : gmap string json) (reg : Registry) :
  fields !! "name" = None \/ fields !! "url" = None ->
  register (Decoded (JObj fields)) reg
  = (reg, "Error: API configuration must include 'name' and 'url' fields").
Proof.
  intros H. unfold register_api_tool_from_config.
  rewrite (register_decoded_missing_field _ H). reflexivity.
Qed.

(** With both fields, the registration goes by the [type] field. *)
Lemma register_validated (fields : gmap string json) (reg : Registry) (n u : json) :
  fields !! "name" = Some n -> fields !! "url" = Some u ->
  register (Decoded (JObj fields)) reg
  = match default (JStr "") (fields !! "type") with
    | JStr s =>
        if String.eqb (lower s) "cat_fact"
        then (<["cat_fact" := get_cat_fact external_text]> reg,
              "Successfully registered '" +:+ py_str py_repr n +:+ "' API tool")
        else (reg, "Error: Unsupported API tool type '" +:+ lower s
                   +:+ "'. Currently supported types: cat_fact")
    | v => (reg, "Error registering API tool: '" +:+ type_name v
                 +:+ "' object has no attribute 'lower'")
    end.
Proof.
  intros Hn Hu. unfold register_api_tool_from_config.
  rewrite (register_decoded_validated _ _ _ Hn Hu).
  destruct (default (JStr "") (fields !! "type")) as [| | | |s| |]; try reflexivity.
  destruct (String.eqb (lower s) "cat_fact"); reflexivity.
Qed.

(** Whatever the document, the keys other than ["cat_fact"] keep their
    tools. *)
Lemma register_other_keys (config_json : Loaded) (reg : Registry) (key : string) :
  key <> "cat_fact" ->
  fst (register config_json reg) !! key = reg !! key.
Proof.
  intros Hkey. destruct config_json as [|config]; [reflexivity|].
  destruct config as [| | | |s|items|fields]; try reflexivity.
  - unfold register_api_tool_from_config, register_decoded, bind, py_in, ret.
    destruct (contains "name" s); simpl; [destruct (contains "url" s)|]; reflexivity.
  - unfold register_api_tool_from_config, register_decoded, bind, py_in, ret.
    destruct (existsb _ items); simpl; [destruct (existsb _ items)|]; reflexivity.
  - destruct (fields !! "name") as [n|] eqn:Hn;
      [|rewrite register_missing_field by (left; exact Hn); reflexivity].
    destruct (fields !! "url") as [u|] eqn:Hu;
      [|rewrite register_missing_field by (right; exact Hu); reflexivity].
    rewrite (register_validated _ _ _ _ Hn Hu).
    destruct (default (JStr "") (fields !! "type")) as [| | | |s| |]; try reflexivity.
    destruct (String.eqb (lower s) "cat_fact"); [|reflexivity].
    simpl. apply lookup_insert_ne. congruence.
Qed.

(** Once the tool is registered, [create_agents] gives the triage agent
    a fifth delegate, the cat fact agent with that tool. *)
Lemma registered_tool_gets_agent (reg : Registry) (model_name : string) :
  handoffs (create_agents external_text
              (<["cat_fact" := get_cat_fact external_text]> reg) model_name)
  = [weather_agent external_text model_name; joke_agent external_text model_name;
     bitcoin_agent external_text model_name; time_agent external_text model_name;
     cat_fact_agent model_name (get_cat_fact external_text)].
Proof.
  unfold create_agents, specialized_agents. cbn [handoffs].
  rewrite lookup_insert_eq. reflexivity.
Qed.

(** Registration stores no other tool than [get_cat_fact]. *)
Lemma register_keeps_cat_fact_tool (config_json : Loaded) (reg : Registry) :
  (forall tool, reg !! "cat_fact" = Some tool -> tool = get_cat_fact external_text) ->
  forall tool, fst (register config_json reg) !! "cat_fact" = Some tool ->
               tool = get_cat_fact external_text.
Proof.
  intros Hreg tool. destruct config_json as [|config]; [apply Hreg|].
  destruct config as [| | | |s|items|fields]; try apply Hreg.
  - unfold register_api_tool_from_config, register_decoded, bind, py_in, ret.
    destruct (contains "name" s); simpl; [destruct (contains "url" s)|]; apply Hreg.
  - unfold register_api_tool_from_config, register_decoded, bind, py_in, ret.
    destruct (existsb _ items); simpl; [destruct (existsb _ items)|]; apply Hreg.
  - destruct (fields !! "name") as [n|] eqn:Hn;
      [|rewrite register_missing_field by (left; exact Hn); apply Hreg].
    destruct (fields !! "url") as [u|] eqn:Hu;
      [|rewrite register_missing_field by (right; exact Hu); apply Hreg].
    rewrite (register_validated _ _ _ _ Hn Hu).
    destruct (default (JStr "") (fields !! "type")) as [| | | |s| |]; try apply Hreg.
    destruct (String.eqb (lower s) "cat_fact"); [|apply Hreg].
    simpl. rewrite lookup_insert_eq. congruence.
Qed.

End Registration.

(** C2, as stated, fails for a descriptor with [name], [url] and [type]
    and no [inputSchema]: it is registered, and the registry, empty
    before, then holds the tool under ["cat_fact"]. *)
Lemma descriptor_without_input_schema_registers :
  match Samples.cat_facts_config with
  | JObj fields => fields !! "inputSchema" = None
  | _ => False
  end
  /\ let after := register_api_tool_from_config Samples.no_text Samples.no_repr
                    (Decoded Samples.cat_facts_config) ∅ in
     snd after = "Successfully registered 'Cat Facts API' API tool"
     /\ fst after !! "cat_fact" = Some (get_cat_fact Samples.no_text)
     /\ (∅ : Registry) !! "cat_fact" = None.
Proof.
  split; [vm_compute; reflexivity|]. cbv zeta.
  unfold Samples.cat_facts_config.
  rewrite (register_validated _ _ _ ∅ (JStr "Cat Facts API")
             (JStr "https://catfact.ninja/fact")) by (vm_compute; reflexivity).
  split; [vm_compute; reflexivity|]. split; [|reflexivity].
  replace (default (JStr "") _) with (JStr "cat_fact") by (vm_compute; reflexivity).
  simpl. apply lookup_insert_eq.
Qed.

(** C2, amended.  The fields the registration requires are [name] and
    [url]: for every descriptor without [name] or without [url] it returns
    the message that both are required, and the registry is as before (no
    tool is visible under a name that was not there).  A descriptor is not
    refused for having no [inputSchema]. *)
Theorem descriptor_without_name_or_url_refused
    (external_text : string -> string -> string -> string) (py_repr : json -> string)
    (fields : gmap string json) (custom_api_tools : Registry) :
  fields !! "name" = None \/ fields !! "url" = None ->
  register_api_tool_from_config external_text py_repr (Decoded (JObj fields)) custom_api_tools
  = (custom_api_tools, "Error: API configuration must include 'name' and 'url' fields").
Proof. apply register_missing_field. Qed.

Lemma descriptor_without_name_or_url_refused_witness :
  register_api_tool_from_config Samples.no_text Samples.no_repr
    (Decoded Samples.shown_example) ∅
  = (∅, "Error: API configuration must include 'name' and 'url' fields").
Proof.
  apply (descriptor_without_name_or_url_refused Samples.no_text Samples.no_repr).
  right. vm_compute. reflexivity.
Defined.

(** C10, as stated, fails for a descriptor whose type is [CAT_FACT], which
    is another string than [cat_fact]: the tool is registered all the
    same. *)
Lemma capitals_type_registers :
  match Samples.capitals_config with
  | JObj fields => fields !! "type" = Some (JStr "CAT_FACT")
  | _ => False
  end
  /\ JStr "CAT_FACT" <> JStr "cat_fact"
  /\ let after := register_api_tool_from_config Samples.no_text Samples.no_repr
                    (Decoded Samples.capitals_config) ∅ in
     snd after = "Successfully registered 'Cat Facts API' API tool"
     /\ fst after !! "cat_fact" = Some (get_cat_fact Samples.no_text)
     /\ fst after <> ∅.
Proof.
  split; [vm_compute; reflexivity|]. split; [discriminate|]. cbv zeta.
  unfold Samples.capitals_config.
  rewrite (register_validated _ _ _ ∅ (JStr "Cat Facts API")
             (JStr "https://catfact.ninja/fact")) by (vm_compute; reflexivity).
  replace (default (JStr "") _) with (JStr "CAT_FACT") by (vm_compute; reflexivity).
  split; [vm_compute; reflexivity|]. simpl.
  split; [apply lookup_insert_eq|]. apply insert_non_empty.
Qed.

(** C10, amended.  For a descriptor with [name] and [url]: when its type is
    a string that reads [cat_fact] once put in lower case, the tool is
    stored under the key ["cat_fact"], whatever the name, and the message
    reports the name; when its type (the empty string if there is none) is
    a string that does not, the registry is as before and the message says
    the type is unsupported; when its type is not a string, the registry
    is as before and the message reports the error. *)
Theorem registration_goes_by_lowercased_type
    (external_text : string -> string -> string -> string) (py_repr : json -> string)
    (fields : gmap string json) (custom_api_tools : Registry) (n u : json) :
  fields !! "name" = Some n ->
  fields !! "url" = Some u ->
  (forall s, fields !! "type" = Some (JStr s) -> lower s = "cat_fact" ->
     register_api_tool_from_config external_text py_repr (Decoded (JObj fields)) custom_api_tools
     = (<["cat_fact" := get_cat_fact external_text]> custom_api_tools,
        "Successfully registered '" +:+ py_str py_repr n +:+ "' API tool"))
  /\ (forall s, default (JStr "") (fields !! "type") = JStr s -> lower s <> "cat_fact" ->
     register_api_tool_from_config external_text py_repr (Decoded (JObj fields)) custom_api_tools
     = (custom_api_tools,
        "Error: Unsupported API tool type '" +:+ lower s
        +:+ "'. Currently supported types: cat_fact"))
  /\ (forall v, fields !! "type" = Some v -> (forall s, v <> JStr s) ->
     register_api_tool_from_config external_text py_repr (Decoded (JObj fields)) custom_api_tools
     = (custom_api_tools,
        "Error registering API tool: '" +:+ type_name v
        +:+ "' object has no attribute 'lower'")).
Proof.
  intros Hn Hu. repeat split.
  - intros s Ht Hs. rewrite (register_validated _ _ _ _ _ _ Hn Hu), Ht. simpl.
    rewrite Hs. reflexivity.
  - intros s Ht Hs. rewrite (register_validated _ _ _ _ _ _ Hn Hu), Ht.
    apply String.eqb_neq in Hs. rewrite Hs. reflexivity.
  - intros v Ht Hv. rewrite (register_validated _ _ _ _ _ _ Hn Hu), Ht. simpl.
    destruct v; try reflexivity. exfalso. eapply Hv. reflexivity.
Qed.

Lemma registration_goes_by_lowercased_type_witness :
  register_api_tool_from_config Samples.no_text Samples.no_repr
    (Decoded Samples.capitals_config) ∅
  = (<["cat_fact" := get_cat_fact Samples.no_text]> ∅,
     "Successfully registered 'Cat Facts API' API tool")
  /\ register_api_tool_from_config Samples.no_text Samples.no_repr
       (Decoded Samples.dog_facts_config) ∅
     = (∅, "Error: Unsupported API tool type 'dog_fact'. Currently supported types: cat_fact")
  /\ register_api_tool_from_config Samples.no_text Samples.no_repr
       (Decoded Samples.numbered_config) ∅
     = (∅, "Error registering API tool: 'int' object has no attribute 'lower'").
Proof.
  split; [|split].
  - refine (proj1 (registration_goes_by_lowercased_type Samples.no_text Samples.no_repr
                     _ ∅ (JStr "Cat Facts API") (JStr "https://catfact.ninja/fact") _ _)
                  "CAT_FACT" _ _); vm_compute; reflexivity.
  - refine (proj1 (proj2 (registration_goes_by_lowercased_type Samples.no_text Samples.no_repr
                     _ ∅ (JStr "Dog Facts API") (JStr "https://dogapi.dog/api/v2/facts") _ _))
                  "dog_fact" _ _); [vm_compute; reflexivity ..|discriminate].
  - refine (proj2 (proj2 (registration_goes_by_lowercased_type Samples.no_text Samples.no_repr
                     _ ∅ (JStr "Third API") (JStr "https://example.org/3") _ _))
                  (JInt 3) _ _); [vm_compute; reflexivity ..|discriminate].
Defined.

End RegistryFacts.

(** ** Sessions of the console programs *)

Module SessionFacts.
Import Py PyFacts Chat ChatFacts Agents Turn RenderFacts TurnFacts.

Section Sessions.
Variable decide : string -> string -> string -> list string -> Decision.
Variable max_turns : nat.

(** In each program, a completed turn leaves the triage agent with the
    instructions it had. *)
Lemma completed_turn_restores_instructions (ctx : ChatContext) (message : string)
    (agent : Agent) (response : string) :
  Programs.triage_instructions (instructions agent) ->
  end_outcome (process_message decide max_turns ctx message agent) = Completed response ->
  instructions (end_agent (process_message decide max_turns ctx message agent))
  = instructions agent.
Proof.
  intros Htemplate Hdone.
  destruct (process_message_completed _ _ _ _ _ _ Hdone) as (_ & _ & ->).
  unfold reset_step, render_step. cbn [fst snd]. rewrite !instructions_set.
  apply program_templates_round_trip; [exact Htemplate|apply add_message_nonempty].
Qed.

(** A turn whose run raises leaves the rendered text in the agent. *)
Lemma failed_turn_leaves_rendered_instructions (ctx : ChatContext) (message : string)
    (agent : Agent) (e : RunError) :
  end_outcome (process_message decide max_turns ctx message agent) = Raised e ->
  instructions (end_agent (process_message decide max_turns ctx message agent))
  = render (instructions agent) (add_message ctx "user" message).
Proof.
  intros Hfail.
  destruct (process_message_raised _ _ _ _ _ _ Hfail) as (_ & _ & ->).
  reflexivity.
Qed.

Lemma process_message_tools_read_only (ctx : ChatContext) (message : string) (agent : Agent) :
  tools_read_only agent ->
  tools_read_only (end_agent (process_message decide max_turns ctx message agent)).
Proof.
  intros Hro.
  destruct (end_outcome (process_message decide max_turns ctx message agent)) as [r|e] eqn:E.
  - destruct (process_message_completed _ _ _ _ _ _ E) as (_ & _ & ->).
    unfold reset_step, render_step. cbn [fst snd].
    repeat apply tools_read_only_set_instructions. exact Hro.
  - destruct (process_message_raised _ _ _ _ _ _ E) as (_ & _ & ->).
    unfold render_step. cbn [fst]. apply tools_read_only_set_instructions. exact Hro.
Qed.

(** A session that ends at an exit word or at the end of the input leaves
    the triage agent of a program with its instructions. *)
Theorem session_keeps_instructions (inputs : list string) :
  forall (ctx : ChatContext) (agent : Agent),
    Programs.triage_instructions (instructions agent) ->
    snd (main_loop decide max_turns inputs ctx agent) = None ->
    instructions (snd (fst (main_loop decide max_turns inputs ctx agent)))
    = instructions agent.
Proof.
  induction inputs as [|user_input rest IH]; intros ctx agent Htemplate Hend;
    [reflexivity|].
  simpl in *. destruct (is_exit user_input); [reflexivity|].
  destruct (end_outcome (process_message decide max_turns ctx user_input agent))
    as [response|e] eqn:E; [|discriminate].
  pose proof (completed_turn_restores_instructions _ _ _ _ Htemplate E) as Hkeep.
  rewrite IH; [exact Hkeep| rewrite Hkeep; exact Htemplate | exact Hend].
Qed.

(** The history of a session: the history it started from, then for each
    completed turn the line typed and the response, then, if a turn
    raised, the line typed in that turn.  Nothing is removed or changed. *)
Theorem session_history (inputs : list string) :
  forall (ctx : ChatContext) (agent : Agent),
    tools_read_only agent ->
    exists turns : list (string * string),
      map fst turns = firstn (length turns) inputs
      /\ chat_history (fst (fst (main_loop decide max_turns inputs ctx agent)))
         = chat_history ctx
           ++ flat_map (fun t => [mkMessage "user" (fst t); mkMessage "system" (snd t)]) turns
           ++ match snd (main_loop decide max_turns inputs ctx agent) with
              | None => []
              | Some _ => [mkMessage "user" (nth (length turns) inputs "")]
              end.
Proof.
  induction inputs as [|user_input rest IH]; intros ctx agent Hro.
  - exists []. split; [reflexivity|]. simpl. rewrite List.app_nil_r. reflexivity.
  - simpl main_loop. destruct (is_exit user_input).
    + exists []. split; [reflexivity|]. simpl. rewrite List.app_nil_r. reflexivity.
    + destruct (end_outcome (process_message decide max_turns ctx user_input agent))
        as [response|e] eqn:E.
      * destruct (IH (end_ctx (process_message decide max_turns ctx user_input agent))
                     (end_agent (process_message decide max_turns ctx user_input agent)))
          as (turns & Hturns & Hhist);
          [apply process_message_tools_read_only; exact Hro|].
        exists ((user_input, response) :: turns). split.
        -- simpl. rewrite Hturns. reflexivity.
        -- rewrite Hhist.
           rewrite (completed_turn_history _ _ _ _ _ _ Hro E).
           simpl. rewrite <- !List.app_assoc. reflexivity.
      * exists []. split; [reflexivity|]. simpl.
        rewrite (raised_turn_history _ _ _ _ _ _ Hro E). reflexivity.
Qed.

End Sessions.

End SessionFacts.

(* ================================================================== *)
(** * Part III: further properties of the programs *)
(* ================================================================== *)

(** ** The history and the text made of it *)

Module HistoryProps.
Import Py PyFacts Chat ChatFacts Agents Turn RenderFacts.

Lemma slice_from_positive {A} (n : Z) (l : list A) :
  (0 < n)%Z -> slice_from n l = skipn (Z.to_nat n) l.
Proof.
  intros Hn. unfold slice_from.
  destruct (Z.ltb_spec n 0) as [H|_]; [lia|].
  destruct (Z.le_gt_cases n (Z.of_nat (length l))) as [Hle|Hgt].
  - rewrite Z.min_l by lia. reflexivity.
  - rewrite Z.min_r by lia. rewrite Nat2Z.id.
    rewrite !skipn_all2 by lia. reflexivity.
Qed.

Lemma skipn_app_exact {A} (old recent : list A) :
  skipn (length (old ++ recent) - length recent) (old ++ recent) = recent.
Proof.
  rewrite List.length_app.
  replace (length old + length recent - length recent) with (length old) by lia.
  induction old as [|x old IH]; [reflexivity|exact IH].
Qed.

Lemma skipn_snoc {A} (n : nat) (l : list A) (x : A) :
  n <= length l -> skipn n (l ++ [x]) = skipn n l ++ [x].
Proof.
  revert n. induction l as [|y l IH]; intros n Hn.
  - destruct n; [reflexivity|simpl in Hn; lia].
  - destruct n as [|n]; [reflexivity|]. simpl. apply IH. simpl in Hn. lia.
Qed.

Lemma fold_append_entry_snoc (entries : list Message) (entry : Message) (acc : string) :
  fold_left append_entry (entries ++ [entry]) acc
  = fold_left append_entry entries acc
    +:+ (role_display entry +:+ ": " +:+ content entry +:+ nl).
Proof. rewrite fold_left_app. reflexivity. Qed.

(** X1.  For a window size of at least 1, the entries [get_history_text]
    goes through are the last [min max_messages (len chat_history)]
    entries of the history, in the order they were added: the history is
    some older entries followed by exactly the window. *)
Theorem window_keeps_last_entries (ctx : ChatContext) (max_messages : Z) :
  (1 <= max_messages)%Z ->
  exists older,
    chat_history ctx = older ++ history_window ctx max_messages
    /\ length (history_window ctx max_messages)
       = Nat.min (Z.to_nat max_messages) (length (chat_history ctx)).
Proof. apply history_window_last. Qed.

Lemma window_keeps_last_entries_witness :
  exists older,
    chat_history Samples.long_chat = older ++ history_window Samples.long_chat 5
    /\ length (history_window Samples.long_chat 5)
       = Nat.min (Z.to_nat 5) (length (chat_history Samples.long_chat)).
Proof. apply (window_keeps_last_entries Samples.long_chat 5). lia. Defined.


(** X3.  A negative [max_messages] does not count from the end: the slice
    [chat_history[-max_messages:]] then starts at index [-max_messages],
    so the window is the history without its first [-max_messages]
    entries (and is empty when the history has no more than that). *)
Theorem negative_window_drops_oldest (ctx : ChatContext) (max_messages : Z) :
  (max_messages < 0)%Z ->
  history_window ctx max_messages
  = skipn (Z.to_nat (- max_messages)) (chat_history ctx).
Proof. intros H. unfold history_window. apply slice_from_positive. lia. Qed.

Lemma negative_window_drops_oldest_witness :
  history_window Samples.long_chat (-5)
  = skipn (Z.to_nat (- (-5))) (chat_history Samples.long_chat)
  /\ history_window Samples.long_chat (-5)
     = [mkMessage "system" "six"; mkMessage "user" "seven"].
Proof.
  split; [|reflexivity].
  apply (negative_window_drops_oldest Samples.long_chat (-5)). lia.
Defined.

(** X4.  For a window size of at least 1, the text depends on the last
    [max_messages] entries only: a history that ends with [max_messages]
    entries gives the text those entries alone give, whatever comes
    before them. *)
Theorem history_text_of_recent_entries (ctx : ChatContext) (max_messages : Z)
    (older recent : list Message) :
  (1 <= max_messages)%Z ->
  chat_history ctx = older ++ recent ->
  length recent = Z.to_nat max_messages ->
  get_history_text ctx max_messages
  = get_history_text (mkChatContext (user_id ctx) (username ctx) recent) max_messages.
Proof.
  intros Hk Hh Hlen.
  assert (Hrecent : recent <> []) by (destruct recent; [simpl in Hlen; lia|discriminate]).
  rewrite !get_history_text_nonempty.
  - f_equal. f_equal. f_equal. unfold history_window.
    rewrite !slice_from_last by lia. simpl chat_history. rewrite Hh, <- Hlen.
    rewrite skipn_app_exact, Nat.sub_diag. reflexivity.
  - exact Hrecent.
  - rewrite Hh. destruct older; [exact Hrecent|discriminate].
Qed.

Lemma history_text_of_recent_entries_witness :
  get_history_text Samples.long_chat 2
  = get_history_text
      (mkChatContext "u1" "ann" [mkMessage "system" "six"; mkMessage "user" "seven"]) 2.
Proof.
  apply (history_text_of_recent_entries Samples.long_chat 2
           [mkMessage "user" "one"; mkMessage "system" "two"; mkMessage "user" "three";
            mkMessage "system" "four"; mkMessage "user" "five"]
           [mkMessage "system" "six"; mkMessage "user" "seven"]).
  - lia.
  - reflexivity.
  - reflexivity.
Defined.

(** X5.  [add_message] only appends: after any sequence of calls the
    history is the history before, unchanged, followed by one entry per
    call, in the order of the calls, with the role and content given. *)
Theorem add_message_only_appends (ctx : ChatContext) (calls : list (string * string)) :
  chat_history (add_messages ctx calls)
  = chat_history ctx ++ map (fun call => mkMessage (fst call) (snd call)) calls
  /\ user_id (add_messages ctx calls) = user_id ctx
  /\ username (add_messages ctx calls) = username ctx.
Proof.
  split; [apply add_messages_history|].
  revert ctx. induction calls as [|call calls IH]; intros ctx; [split; reflexivity|].
  change (add_messages ctx (call :: calls))
    with (add_messages (add_message ctx (fst call) (snd call)) calls).
  destruct (IH (add_message ctx (fst call) (snd call))) as [-> ->]. split; reflexivity.
Qed.

(** X6.  In a turn the user message is added before the history text is
    made, so the text the render step puts in the instructions always ends
    with the line of the current message, [User: <message>]. *)
Theorem turn_text_ends_with_message (ctx : ChatContext) (message : string) (agent : Agent) :
  exists before,
    snd (render_step (add_message ctx "user" message) agent)
    = before +:+ ("User: " +:+ message +:+ nl).
Proof.
  rewrite render_step_history_text. unfold get_history_text.
  destruct (chat_history (add_message ctx "user" message)) as [|e h] eqn:E;
    [exfalso; exact (add_message_nonempty _ _ _ E)|].
  clear E e h. unfold history_window, default_max_messages.
  rewrite slice_from_last by lia. simpl chat_history.
  rewrite List.length_app. simpl length.
  rewrite skipn_snoc by lia. rewrite fold_append_entry_snoc.
  eexists. reflexivity.
Qed.

End HistoryProps.

(** ** Turns and sessions *)

Module SessionProps.
Import Py PyFacts Chat ChatFacts Agents Turn RenderFacts TurnFacts SessionFacts.

Lemma set_instructions_back (agent : Agent) (text : string) :
  set_instructions (set_instructions agent text) (instructions agent) = agent.
Proof. destruct agent; reflexivity. Qed.

Lemma set_instructions_same (agent : Agent) :
  set_instructions agent (instructions agent) = agent.
Proof. destruct agent; reflexivity. Qed.

(** A completed turn of a program hands the agent object back as it was. *)
Lemma completed_turn_agent
    (decide : string -> string -> string -> list string -> Decision) (max_turns : nat)
    (ctx : ChatContext) (message : string) (agent : Agent) (response : string) :
  Programs.triage_instructions (instructions agent) ->
  end_outcome (process_message decide max_turns ctx message agent) = Completed response ->
  end_agent (process_message decide max_turns ctx message agent) = agent.
Proof.
  intros Htemplate Hdone.
  destruct (process_message_completed _ _ _ _ _ _ Hdone) as (_ & _ & ->).
  unfold reset_step, render_step. cbn [fst snd]. rewrite instructions_set.
  rewrite (program_templates_round_trip _ _ Htemplate (add_message_nonempty _ _ _)).
  destruct agent; reflexivity.
Qed.

Lemma main_loop_after_exit
    (decide : string -> string -> string -> list string -> Decision) (max_turns : nat)
    (before : list string) (word : string) (after : list string) :
  is_exit word = true ->
  forall (ctx : ChatContext) (agent : Agent),
    main_loop decide max_turns (before ++ word :: after) ctx agent
    = main_loop decide max_turns before ctx agent.
Proof.
  intros Hword. induction before as [|line before IH]; intros ctx agent.
  - simpl. rewrite Hword. reflexivity.
  - simpl. destruct (is_exit line); [reflexivity|].
    destruct (end_outcome (process_message decide max_turns ctx line agent));
      [apply IH|reflexivity].
Qed.

(** X7.  In each of the three programs a completed turn leaves the triage
    agent exactly as it was before the turn: the render step writes the
    history into its instructions and the reset step takes it out again,
    for every history and every message, so nothing of one turn's history
    stays in the agent for the next. *)
Theorem completed_turn_hands_agent_back
    (decide : string -> string -> string -> list string -> Decision) (max_turns : nat)
    (ctx : ChatContext) (message : string) (agent : Agent) (response : string) :
  Programs.triage_instructions (instructions agent) ->
  end_outcome (process_message decide max_turns ctx message agent) = Completed response ->
  end_agent (process_message decide max_turns ctx message agent) = agent.
Proof. apply completed_turn_agent. Qed.

Lemma completed_turn_hands_agent_back_witness :
  end_agent (process_message Samples.joke_engine 10 Samples.long_chat "tell me a joke"
               (SimpleChat.triage_agent Samples.keys_env))
  = SimpleChat.triage_agent Samples.keys_env.
Proof.
  apply (completed_turn_hands_agent_back Samples.joke_engine 10 Samples.long_chat
           "tell me a joke" (SimpleChat.triage_agent Samples.keys_env)
           "Here's a joke about cats for user ann... (API Key: jk-12...)").
  - left. reflexivity.
  - vm_compute. reflexivity.
Defined.

(** X8.  A session of a console program that ends at an exit word or at
    the end of the input, with no turn raising, leaves the triage agent
    with the instructions it started with, however many turns were
    played. *)
Theorem session_leaves_instructions
    (decide : string -> string -> string -> list string -> Decision) (max_turns : nat)
    (inputs : list string) (ctx : ChatContext) (agent : Agent) :
  Programs.triage_instructions (instructions agent) ->
  snd (main_loop decide max_turns inputs ctx agent) = None ->
  instructions (snd (fst (main_loop decide max_turns inputs ctx agent)))
  = instructions agent.
Proof. apply session_keeps_instructions. Qed.

Lemma session_leaves_instructions_witness :
  instructions
    (snd (fst (SimpleChat.main Samples.empty_env Samples.joke_engine 10
                 ["tell me a joke"; "and another"; "Quit"])))
  = SimpleChat.triage_instructions.
Proof.
  apply (session_leaves_instructions Samples.joke_engine 10
           ["tell me a joke"; "and another"; "Quit"]
           (SimpleChat.initial_context Samples.empty_env)
           (SimpleChat.triage_agent Samples.empty_env)).
  - left. reflexivity.
  - vm_compute. reflexivity.
Defined.

(** X9.  In a console session of one of the programs, a line that is not
    an exit word is answered by one run, started from the triage agent
    with its instructions rendered and from the context with the line
    added as a user entry.  If the run completes, the session goes on
    with the rest of the lines from that context with the run's final
    output added as a system entry, and with the triage agent as it was;
    if the run raises, the session ends with that exception, the context
    holding the line and no response, the agent holding the rendered
    instructions. *)
Theorem session_step
    (decide : string -> string -> string -> list string -> Decision) (max_turns : nat)
    (line : string) (rest : list string) (ctx : ChatContext) (agent : Agent) :
  tools_read_only agent ->
  Programs.triage_instructions (instructions agent) ->
  let ctx1 := add_message ctx "user" line in
  let rendered := fst (render_step ctx1 agent) in
  main_loop decide max_turns (line :: rest) ctx agent
  = if existsb (String.eqb (lower line)) ["exit"; "bye"; "quit"]
    then (ctx, agent, None)
    else match snd (Runner_run decide max_turns rendered line ctx1) with
         | Completed response =>
             main_loop decide max_turns rest (add_message ctx1 "system" response) agent
         | Raised e => (ctx1, rendered, Some e)
         end.
Proof.
  intros Hro Hprogram ctx1 rendered.
  change (existsb (String.eqb (lower line)) ["exit"; "bye"; "quit"]) with (is_exit line).
  simpl main_loop. destruct (is_exit line); [reflexivity|].
  assert (Hctx : fst (fst (Runner_run decide max_turns rendered line ctx1)) = ctx1).
  { unfold Runner_run. apply run_loop_context.
    apply tools_read_only_set_instructions. exact Hro. }
  destruct (end_outcome (process_message decide max_turns ctx line agent))
    as [response|e] eqn:E.
  - rewrite (completed_turn_agent _ _ _ _ _ _ Hprogram E).
    destruct (process_message_completed _ _ _ _ _ _ E) as (Hrun & -> & _).
    fold ctx1 in Hrun |- *. fold rendered in Hrun |- *. rewrite Hrun, Hctx. reflexivity.
  - destruct (process_message_raised _ _ _ _ _ _ E) as (Hrun & -> & ->).
    fold ctx1 in Hrun |- *. fold rendered in Hrun |- *. rewrite Hrun, Hctx. reflexivity.
Qed.

Lemma session_step_witness :
  main_loop Samples.joke_engine 10 ["tell me a joke"; "Quit"]
    (SimpleChat.initial_context Samples.empty_env) (SimpleChat.triage_agent Samples.empty_env)
  = main_loop Samples.joke_engine 10 ["Quit"]
      (add_message
         (add_message (SimpleChat.initial_context Samples.empty_env) "user" "tell me a joke")
         "system" "Here's a joke about cats for user default_user... (API Key: Not set...)")
      (SimpleChat.triage_agent Samples.empty_env).
Proof.
  refine (session_step Samples.joke_engine 10 "tell me a joke" ["Quit"]
            (SimpleChat.initial_context Samples.empty_env)
            (SimpleChat.triage_agent Samples.empty_env) _ _).
  - apply simple_chat_tools_read_only.
  - left. reflexivity.
Defined.

(** X10.  The console loop stops at the first line that is [exit], [bye]
    or [quit] in any letter case: the lines after it are never read, so a
    session over lines that hold such a word ends as the session over the
    lines before it. *)
Theorem lines_after_exit_ignored
    (decide : string -> string -> string -> list string -> Decision) (max_turns : nat)
    (before : list string) (word : string) (after : list string)
    (ctx : ChatContext) (agent : Agent) :
  existsb (String.eqb (lower word)) ["exit"; "bye"; "quit"] = true ->
  main_loop decide max_turns (before ++ word :: after) ctx agent
  = main_loop decide max_turns before ctx agent.
Proof. intros H. apply main_loop_after_exit. exact H. Qed.

Lemma lines_after_exit_ignored_witness :
  main_loop Samples.joke_engine 10 (["tell me a joke"] ++ "BYE" :: ["tell me more"])
    (SimpleChat.initial_context Samples.empty_env) (SimpleChat.triage_agent Samples.empty_env)
  = main_loop Samples.joke_engine 10 ["tell me a joke"]
      (SimpleChat.initial_context Samples.empty_env) (SimpleChat.triage_agent Samples.empty_env).
Proof.
  apply (lines_after_exit_ignored Samples.joke_engine 10 ["tell me a joke"] "BYE"
           ["tell me more"]).
  reflexivity.
Defined.

End SessionProps.

(** ** The tools of the first console program *)

Module ToolProps.
Import Py PyFacts Chat Agents.

Lemma key_preview_spec (api_key : option string) :
  match api_key with
  | Some (String c key) =>
      exists rest,
        String c key = SimpleChat.key_preview api_key +:+ rest
        /\ len (SimpleChat.key_preview api_key) = Nat.min 5 (len (String c key))
        /\ match rest with
           | "" => True
           | String d _ => is_continuation d = false
           end
  | _ => SimpleChat.key_preview api_key = "Not set"
  end.
Proof.
  destruct api_key as [[|c key]|]; [reflexivity| |reflexivity].
  change (SimpleChat.key_preview (Some (String c key))) with (take 5 (String c key)).
  apply take_spec.
Qed.

(** X11.  The text the two tools of the first console program return
    quotes [Not set] when the variable of the API key is unset or empty,
    and otherwise the first five characters of the key and nothing more of
    it (the whole key when it has five characters or fewer); the tools
    hand the context back untouched. *)
Theorem tools_quote_first_five_key_characters
    (getenv : string -> option string) (ctx : ChatContext) (topic : string) :
  let quoted (api_key : option string) (shown : string) :=
    match api_key with
    | Some (String c key) =>
        exists rest,
          String c key = shown +:+ rest
          /\ len shown = Nat.min 5 (len (String c key))
          /\ match rest with
             | "" => True
             | String d _ => is_continuation d = false
             end
    | _ => shown = "Not set"
    end in
  (exists shown,
     on_invoke (SimpleChat.get_jokes getenv) ctx topic
     = (ctx, "Here's a joke about " +:+ topic +:+ " for user " +:+ username ctx
             +:+ "... (API Key: " +:+ shown +:+ "...)")
     /\ quoted (getenv "JOKES_API_KEY") shown)
  /\ (exists shown,
        on_invoke (SimpleChat.get_btc_price getenv) ctx topic
        = (ctx, "Current Bitcoin price for " +:+ username ctx
                +:+ ": $XX,XXX.XX (API Key: " +:+ shown +:+ "...)")
        /\ quoted (getenv "BTC_API_KEY") shown).
Proof.
  intros quoted. split.
  - exists (SimpleChat.key_preview (getenv "JOKES_API_KEY")). split; [reflexivity|].
    apply key_preview_spec.
  - exists (SimpleChat.key_preview (getenv "BTC_API_KEY")). split; [reflexivity|].
    apply key_preview_spec.
Qed.

End ToolProps.

(** ** Registration and the agents built from the registry *)

Module RegistryProps.
Import Py PyFacts Chat Agents Gradio RegistryFacts.

Section Registration.
Variable external_text : string -> string -> string -> string.
Variable py_repr : json -> string.

Local Abbreviation register := (register_api_tool_from_config external_text py_repr).

(** What a registration does to the registry and how its message starts
    are decided by the document alone. *)
Lemma register_uniform (config_json : Loaded) :
  (exists message,
     String.prefix "Successfully registered '" message = true
     /\ forall reg : Registry,
          register config_json reg
          = (<["cat_fact" := get_cat_fact external_text]> reg, message))
  \/ (exists message,
        String.prefix "Error" message = true
        /\ forall reg : Registry, register config_json reg = (reg, message)).
Proof.
  destruct config_json as [|config].
  { right. eexists. split; [|intros reg; reflexivity]; reflexivity. }
  destruct config as [| | | |s|items|fields];
    try (right; eexists; split; [|intros reg; reflexivity]; reflexivity).
  - right. destruct (contains "name" s) eqn:Hn; [destruct (contains "url" s) eqn:Hu|];
      (eexists; split;
       [|intros reg;
         unfold register_api_tool_from_config, register_decoded, bind, py_in, ret;
         rewrite ?Hn; simpl; rewrite ?Hu; reflexivity]; reflexivity).
  - right.
    destruct (existsb (fun x => match x with JStr s => String.eqb s "name" | _ => false end)
                      items) eqn:Hn;
      [destruct (existsb (fun x => match x with JStr s => String.eqb s "url" | _ => false end)
                         items) eqn:Hu|];
      (eexists; split;
       [|intros reg;
         unfold register_api_tool_from_config, register_decoded, bind, py_in, ret;
         rewrite ?Hn; simpl; rewrite ?Hu; reflexivity]; reflexivity).
  - destruct (fields !! "name") as [n|] eqn:Hn;
      [|right; eexists; split;
        [|intros reg; apply register_missing_field; left; exact Hn]; reflexivity].
    destruct (fields !! "url") as [u|] eqn:Hu;
      [|right; eexists; split;
        [|intros reg; apply register_missing_field; right; exact Hu]; reflexivity].
    destruct (default (JStr "") (fields !! "type")) as [|b|z|f|s|l|o] eqn:Ht;
      try (right; eexists; split;
           [|intros reg; rewrite (register_validated _ _ _ _ _ _ Hn Hu), Ht; reflexivity];
           reflexivity).
    destruct (String.eqb (lower s) "cat_fact") eqn:Hs.
    + left. eexists. split;
        [|intros reg; rewrite (register_validated _ _ _ _ _ _ Hn Hu), Ht, Hs; reflexivity].
      apply prefix_app.
    + right. eexists. split;
        [|intros reg; rewrite (register_validated _ _ _ _ _ _ Hn Hu), Ht, Hs; reflexivity];
        reflexivity.
Qed.

Lemma register_once_more (config_json : Loaded) (reg : Registry) :
  register config_json (fst (register config_json reg)) = register config_json reg.
Proof.
  destruct (register_uniform config_json) as [(message & _ & H)|(message & _ & H)].
  - rewrite !H. simpl. rewrite insert_insert_eq. reflexivity.
  - rewrite !H. reflexivity.
Qed.

Lemma register_outcome (config_json : Loaded) (reg : Registry) :
  (fst (register config_json reg) = <["cat_fact" := get_cat_fact external_text]> reg
   /\ String.prefix "Successfully registered '" (snd (register config_json reg)) = true)
  \/ (fst (register config_json reg) = reg
      /\ String.prefix "Error" (snd (register config_json reg)) = true).
Proof.
  destruct (register_uniform config_json) as [(message & Hm & H)|(message & Hm & H)];
    rewrite H; [left|right]; split; (reflexivity || exact Hm).
Qed.

End Registration.

(** X12.  Registration never touches a key other than ["cat_fact"]:
    whatever the document, a tool stored under another key is still there
    afterwards, and no tool appears under another key. *)
Theorem registration_touches_only_cat_fact
    (external_text : string -> string -> string -> string) (py_repr : json -> string)
    (config_json : Loaded) (custom_api_tools : Registry) (key : string) :
  key <> "cat_fact" ->
  fst (register_api_tool_from_config external_text py_repr config_json custom_api_tools) !! key
  = custom_api_tools !! key.
Proof. apply register_other_keys. Qed.

Lemma registration_touches_only_cat_fact_witness :
  fst (register_api_tool_from_config Samples.no_text Samples.no_repr
         (Decoded Samples.cat_facts_config)
         {["weather" := get_weather Samples.no_text]}) !! "weather"
  = ({["weather" := get_weather Samples.no_text]} : Registry) !! "weather".
Proof.
  apply (registration_touches_only_cat_fact Samples.no_text Samples.no_repr
           (Decoded Samples.cat_facts_config) {["weather" := get_weather Samples.no_text]}
           "weather").
  discriminate.
Defined.

(** X13.  Registering the same document a second time changes nothing:
    the registry and the message are those of the first registration. *)
Theorem registration_idempotent
    (external_text : string -> string -> string -> string) (py_repr : json -> string)
    (config_json : Loaded) (custom_api_tools : Registry) :
  register_api_tool_from_config external_text py_repr config_json
    (fst (register_api_tool_from_config external_text py_repr config_json custom_api_tools))
  = register_api_tool_from_config external_text py_repr config_json custom_api_tools.
Proof. apply register_once_more. Qed.

(** X14.  A registration never raises and never half-registers: for every
    text, decodable or not, object or not, it either stores [get_cat_fact]
    under ["cat_fact"] and returns a message that starts with
    [Successfully registered '], or leaves the registry as it was and
    returns a message that starts with [Error]. *)
Theorem registration_all_or_nothing
    (external_text : string -> string -> string -> string) (py_repr : json -> string)
    (config_json : Loaded) (custom_api_tools : Registry) :
  let after := register_api_tool_from_config external_text py_repr config_json
                 custom_api_tools in
  (fst after = <["cat_fact" := get_cat_fact external_text]> custom_api_tools
   /\ String.prefix "Successfully registered '" (snd after) = true)
  \/ (fst after = custom_api_tools /\ String.prefix "Error" (snd after) = true).
Proof. apply register_outcome. Qed.

(** X15.  [create_agents] keeps the delegates of the triage agent and the
    list of agents its instructions describe in step: there is one line
    per delegate, in the same order, and each line starts with a dash and
    the name of its delegate; the cat fact agent is in both when a tool is
    registered under ["cat_fact"] and in neither otherwise. *)
Theorem descriptions_match_delegates
    (external_text : string -> string -> string -> string)
    (custom_api_tools : Registry) (model_name : string) :
  Forall2 (fun agent line => String.prefix ("- " +:+ name agent +:+ ":") line = true)
          (handoffs (create_agents external_text custom_api_tools model_name))
          (agent_descriptions custom_api_tools)
  /\ (is_Some (custom_api_tools !! "cat_fact")
      <-> In "Cat Fact Agent"
             (map name (handoffs (create_agents external_text custom_api_tools model_name)))).
Proof.
  unfold create_agents, specialized_agents, agent_descriptions. cbn [handoffs].
  destruct (custom_api_tools !! "cat_fact") as [tool|] eqn:E.
  - split.
    + repeat (constructor; [reflexivity|]). constructor.
    + split; [intros _; simpl; tauto|intros _; eexists; reflexivity].
  - split.
    + repeat (constructor; [reflexivity|]). constructor.
    + split; [intros [x Hx]; discriminate|].
      simpl. intros [H|[H|[H|[H|[]]]]]; discriminate.
Qed.

(** X16.  In the graphical program the history never reaches the triage
    agent: the instructions [create_agents] builds are an f-string, where
    the doubled braces stand for single ones, so they hold no
    [{{CHAT_HISTORY}}] and the render step leaves them as built, whatever
    the registry, the model name and the context. *)
Theorem gradio_history_never_rendered
    (external_text : string -> string -> string -> string)
    (custom_api_tools : Registry) (model_name : string) (ctx : ChatContext) :
  contains Turn.placeholder
           (instructions (create_agents external_text custom_api_tools model_name)) = false
  /\ fst (Turn.render_step ctx (create_agents external_text custom_api_tools model_name))
     = create_agents external_text custom_api_tools model_name.
Proof.
  split; [apply RenderFacts.gradio_instructions_without_placeholder|].
  unfold Turn.render_step. cbn [fst].
  rewrite replace_absent
    by (apply contains_false_find, RenderFacts.gradio_instructions_without_placeholder).
  reflexivity.
Qed.

End RegistryProps.

(** ** The chat window *)

Module WindowProps.
Import Py PyFacts Chat ChatFacts Agents Turn Gradio GradioApp.
Import RenderFacts TurnFacts RegistryFacts RegistryProps SessionProps.

Section Window.
Variable external_text : string -> string -> string -> string.
Variable py_repr : json -> string.
Variable json_loads : string -> Loaded.
Variable decide : string -> string -> string -> list string -> Decision.
Variable max_turns : nat.

Local Abbreviation handler :=
  (message_handler external_text py_repr json_loads decide max_turns).
Local Abbreviation handle :=
  (handle_all external_text py_repr json_loads decide max_turns).

(** What the two branches of [message_handler] leave. *)
Lemma message_handler_command (app : App) (message : string) :
  startswith message "!register " = true ->
  handler app message
  = (let after := register_api_tool_from_config external_text py_repr
                    (json_loads (strip (drop 10 message))) (app_tools app) in
     (mkApp (fst after) (default_agents external_text (fst after)) (app_ctx app),
      Completed (snd after))).
Proof.
  intros H. unfold message_handler. rewrite H.
  destruct (register_api_tool_from_config _ _ _ _). reflexivity.
Qed.

Lemma message_handler_chat (app : App) (message : string) :
  startswith message "!register " = false ->
  handler app message
  = (let t := process_message decide max_turns (app_ctx app) message (app_agent app) in
     (mkApp (app_tools app) (end_agent t) (end_ctx t), end_outcome t)).
Proof. intros H. unfold message_handler. rewrite H. reflexivity. Qed.

Lemma render_step_keeps_built_agent (custom_api_tools : Registry) (ctx : ChatContext) :
  fst (render_step ctx (default_agents external_text custom_api_tools))
  = default_agents external_text custom_api_tools.
Proof.
  unfold render_step. cbn [fst].
  rewrite replace_absent
    by (apply contains_false_find, gradio_instructions_without_placeholder).
  reflexivity.
Qed.


(** Every message keeps the triage agent in step with the registry, and
    the registry within what registration can store. *)
Lemma message_handler_keeps_step (app : App) (message : string) :
  app_agent app = default_agents external_text (app_tools app) ->
  app_tools app = ∅ \/ app_tools app = {["cat_fact" := get_cat_fact external_text]} ->
  app_agent (fst (handler app message))
  = default_agents external_text (app_tools (fst (handler app message)))
  /\ (app_tools (fst (handler app message)) = ∅
      \/ app_tools (fst (handler app message))
         = {["cat_fact" := get_cat_fact external_text]}).
Proof.
  intros Hagent Htools.
  destruct (startswith message "!register ") eqn:Hc.
  - rewrite (message_handler_command _ _ Hc). cbn [fst app_agent app_tools].
    split; [reflexivity|].
    destruct (register_outcome external_text py_repr
                (json_loads (strip (drop 10 message))) (app_tools app))
      as [[-> _]|[-> _]]; [|exact Htools].
    right. destruct Htools as [-> | ->]; [apply insert_empty|apply insert_singleton_eq].
  - rewrite (message_handler_chat _ _ Hc). cbn [fst app_agent app_tools].
    split; [|exact Htools].
    destruct (end_outcome (process_message decide max_turns (app_ctx app) message
                             (app_agent app))) as [response|e] eqn:E.
    + assert (Hprogram : Programs.triage_instructions (instructions (app_agent app)))
        by (rewrite Hagent; right; right; exists (app_tools app); reflexivity).
      rewrite (completed_turn_agent _ _ _ _ _ _ Hprogram E). exact Hagent.
    + destruct (process_message_raised _ _ _ _ _ _ E) as (_ & _ & ->).
      rewrite Hagent. apply render_step_keeps_built_agent.
Qed.

Lemma handle_all_keeps_step (messages : list string) :
  forall app : App,
    app_agent app = default_agents external_text (app_tools app) ->
    app_tools app = ∅ \/ app_tools app = {["cat_fact" := get_cat_fact external_text]} ->
    app_agent (handle messages app)
    = default_agents external_text (app_tools (handle messages app))
    /\ (app_tools (handle messages app) = ∅
        \/ app_tools (handle messages app) = {["cat_fact" := get_cat_fact external_text]}).
Proof.
  induction messages as [|message messages IH]; intros app Hagent Htools;
    [split; assumption|].
  destruct (message_handler_keeps_step app message Hagent Htools) as [Ha Ht].
  exact (IH _ Ha Ht).
Qed.


End Window.

(** X17.  A register command with an accepted cat fact descriptor gives
    the triage agent the cat fact agent as a delegate, so that a handoff
    to ["Cat Fact Agent"] is resolved from then on, where the window
    starts without such a delegate; the command leaves the chat context
    untouched and returns without consulting the engine. *)
Theorem register_command_adds_cat_fact_agent
    (external_text : string -> string -> string -> string) (py_repr : json -> string)
    (json_loads : string -> Loaded)
    (decide : string -> string -> string -> list string -> Decision) (max_turns : nat)
    (app : App) (message : string) (fields : gmap string json) (n u : json) (s : string) :
  startswith message "!register " = true ->
  json_loads (strip (drop 10 message)) = Decoded (JObj fields) ->
  fields !! "name" = Some n ->
  fields !! "url" = Some u ->
  fields !! "type" = Some (JStr s) ->
  lower s = "cat_fact" ->
  let after := message_handler external_text py_repr json_loads decide max_turns app message in
  find_agent "Cat Fact Agent" (handoffs (app_agent (fst after)))
  = Some (cat_fact_agent "o3-mini" (get_cat_fact external_text))
  /\ app_ctx (fst after) = app_ctx app
  /\ snd after = Completed ("Successfully registered '" +:+ py_str py_repr n +:+ "' API tool")
  /\ find_agent "Cat Fact Agent"
       (handoffs (app_agent (build_gradio_interface external_text))) = None.
Proof.
  intros Hc Hloads Hn Hu Ht Hs after. unfold after.
  rewrite (message_handler_command _ _ _ _ _ _ _ Hc), Hloads.
  rewrite (register_validated _ _ _ _ _ _ Hn Hu), Ht.
  change (default (JStr "") (Some (JStr s))) with (JStr s). cbv iota.
  rewrite Hs, String.eqb_refl. cbn [fst snd app_agent app_ctx].
  repeat split.
  unfold default_agents. rewrite registered_tool_gets_agent. reflexivity.
Qed.

Lemma register_command_adds_cat_fact_agent_witness :
  let after := message_handler Samples.no_text Samples.no_repr Samples.one_text_decoder
                 Samples.cat_engine 10 (build_gradio_interface Samples.no_text)
                 "!register   cat facts  " in
  find_agent "Cat Fact Agent" (handoffs (app_agent (fst after)))
  = Some (cat_fact_agent "o3-mini" (get_cat_fact Samples.no_text))
  /\ app_ctx (fst after) = app_ctx (build_gradio_interface Samples.no_text)
  /\ snd after = Completed "Successfully registered 'Cat Facts API' API tool"
  /\ find_agent "Cat Fact Agent"
       (handoffs (app_agent (build_gradio_interface Samples.no_text))) = None.
Proof.
  refine (register_command_adds_cat_fact_agent Samples.no_text Samples.no_repr
            Samples.one_text_decoder Samples.cat_engine 10
            (build_gradio_interface Samples.no_text) "!register   cat facts  "
            _ (JStr "Cat Facts API") (JStr "https://catfact.ninja/fact") "cat_fact"
            _ _ _ _ _ _); vm_compute; reflexivity.
Defined.

(** X18.  Whatever messages the window receives, commands and chat alike,
    completed turns and turns that raise, the triage agent it holds is
    always the agent [create_agents()] builds from the current registry
    (no history is left in its instructions, and its delegates follow the
    registry), and the registry is empty or holds [get_cat_fact] under
    ["cat_fact"] and nothing else. *)
Theorem window_agent_follows_registry
    (external_text : string -> string -> string -> string) (py_repr : json -> string)
    (json_loads : string -> Loaded)
    (decide : string -> string -> string -> list string -> Decision) (max_turns : nat)
    (messages : list string) :
  let app := handle_all external_text py_repr json_loads decide max_turns messages
               (build_gradio_interface external_text) in
  app_agent app = default_agents external_text (app_tools app)
  /\ (app_tools app = ∅ \/ app_tools app = {["cat_fact" := get_cat_fact external_text]}).
Proof.
  apply handle_all_keeps_step; [reflexivity|left; reflexivity].
Qed.


End WindowProps.
